(** * aiomarketstack: the end-of-day price client, embedded and verified

    A shallow embedding of [aiomarketstack/__init__.py], [exceptions.py] and
    [types.py].  Python values are modelled as follows.

    - [int] is [Z]; [str] is [string]; [float] is an IEEE-754 double, in
      the representation of [SpecFloat]; a [TypedDict] is a record, a
      [NotRequired] key an [option] field.
    - Exceptions are values of [exn]; a coroutine is a function of the monad
      [M], which threads the client object, the trace of GET requests that
      reached the network, and the log.
    - The remote server is a parameter [server]: it maps the number of
      requests already answered and the request to the response.
    - An asynchronous generator is embedded together with the [async for]
      that drives it; a consumer that raises leaves the generator
      suspended at its [yield].
    - [date.strftime] and [datetime.fromisoformat] are those of CPython
      3.11 on Linux, the latter embedded from the C implementation. *)

From Stdlib Require Import ZArith List String Ascii Bool Lia PeanoNat SpecFloat.
Import ListNotations.

Local Open Scope string_scope.
Local Open Scope list_scope.
Local Open Scope nat_scope.

(** ** Python dictionaries written as literals *)

Section Dict.
Context {K V : Type} (eqb : K -> K -> bool).

(** [d.get(k)]: the value stored under [k], if any. *)
Fixpoint dict_get (k : K) (d : list (K * V)) : option V :=
  match d with
  | [] => None
  | (k', v) :: d' => if eqb k k' then Some v else dict_get k d'
  end.

(** [k in d]. *)
Definition dict_mem (k : K) (d : list (K * V)) : bool :=
  match dict_get k d with Some _ => true | None => false end.

(** [d.get(k, default)]. *)
Definition dict_get_default (k : K) (default : V) (d : list (K * V)) : V :=
  match dict_get k d with Some v => v | None => default end.
End Dict.

(** ** [datetime.date], [strftime] and [fromisoformat]

    The library calls [d.strftime("%Y-%m-%d")] and
    [datetime.fromisoformat(s).date()].  Both are embedded as CPython 3.11
    runs them on Linux.  The reader follows [_datetimemodule.c] function
    by function, under the names it has there: it accepts the calendar
    and the week dates, in the basic and in the extended format, any one
    character between date and time, times cut short after the hour or
    the minute, fractions of a second, and offsets from UTC.  A string is
    the sequence of the bytes of its UTF-8 encoding. *)

Module datetime.

Local Open Scope Z_scope.

(** A [datetime.date]. *)
Record date := mkdate { year : Z; month : Z; day : Z }.

Definition is_leap (y : Z) : bool :=
  ((y mod 4 =? 0) && negb (y mod 100 =? 0)) || (y mod 400 =? 0).

Definition days_in_month (y m : Z) : Z :=
  if m =? 2 then (if is_leap y then 29 else 28)
  else if (m =? 4) || (m =? 6) || (m =? 9) || (m =? 11) then 30
  else 31.

(** The check made by the constructor [date(year, month, day)]: every
    [date] object of Python satisfies it. *)
Definition date_ok (d : date) : bool :=
  (1 <=? year d) && (year d <=? 9999)
  && (1 <=? month d) && (month d <=? 12)
  && (1 <=? day d) && (day d <=? days_in_month (year d) (month d)).

(** The character of the last decimal digit of [n]. *)
Definition digit (n : Z) : ascii := ascii_of_N (Z.to_N (48 + n mod 10)).

Definition pad2 (n : Z) : string :=
  String (digit (n / 10)) (String (digit n) EmptyString).

Definition pad3 (n : Z) : string := String (digit (n / 100)) (pad2 n).

Definition pad4 (n : Z) : string := String (digit (n / 1000)) (pad3 n).

(** [%Y] as CPython 3.11 and 3.12 render it on Linux, through the C
    library: the decimal year, not zero-filled, so one to four digits for
    the years 1..9999 of a [date]. *)
Definition year_text (y : Z) : string :=
  if y <? 10 then String (digit y) EmptyString
  else if y <? 100 then pad2 y
  else if y <? 1000 then pad3 y
  else pad4 y.

(** [d.strftime("%Y-%m-%d")]: the year as above, [%m] and [%d] on two
    digits. *)
Definition strftime_Ymd (d : date) : string :=
  (year_text (year d) ++ "-" ++ pad2 (month d) ++ "-" ++ pad2 (day d))%string.

Definition digit_value (c : ascii) : option Z :=
  let n := Z.of_N (N_of_ascii c) in
  if (48 <=? n) && (n <=? 57) then Some (n - 48) else None.

(** An ASCII digit, as [is_digit] of the C implementation. *)
Definition is_digit (c : ascii) : bool :=
  match digit_value c with Some _ => true | None => false end.

(** Reads exactly [n] ASCII digits, most significant first
    ([parse_digits] of the C implementation). *)
Fixpoint parse_digits (n : nat) (acc : Z) (s : string)
  : option (Z * string) :=
  match n with
  | O => Some (acc, s)
  | S n' =>
      match s with
      | EmptyString => None
      | String c s' =>
          match digit_value c with
          | Some v => parse_digits n' (10 * acc + v) s'
          | None => None
          end
      end
  end.

(** Strings are the UTF-8 bytes of the Python string, as the C
    implementation reads them; past the end it reads the terminator. *)
Definition NUL : ascii := "000"%char.

Definition head (s : string) : ascii :=
  match s with String c _ => c | EmptyString => NUL end.

Definition tail (s : string) : string :=
  match s with String _ t => t | EmptyString => EmptyString end.

Fixpoint drop (n : nat) (s : string) : string :=
  match n with
  | O => s
  | S n' => drop n' (tail s)
  end.

Definition byte_at (s : string) (i : nat) : ascii := head (drop i s).

(** Consumes the character [c] when the string starts with it. *)
Definition expect (c : ascii) (s : string) : option string :=
  match s with
  | String c' s' => if Ascii.eqb c c' then Some s' else None
  | EmptyString => None
  end.

Fixpoint skip_digits (s : string) : string :=
  match s with
  | String c t => if is_digit c then skip_digits t else s
  | EmptyString => EmptyString
  end.

Fixpoint count_digits (s : string) : nat :=
  match s with
  | String c t => if is_digit c then S (count_digits t) else O
  | EmptyString => O
  end.

(** Calendar arithmetic of the C implementation; [/] and [%] of C are
    [Z.quot] and [Z.rem]. *)
Definition days_before_year (y : Z) : Z :=
  let y1 := y - 1 in
  y1 * 365 + Z.quot y1 4 - Z.quot y1 100 + Z.quot y1 400.

Definition days_before_month_table (m : Z) : Z :=
  nth (Z.to_nat m) [0; 0; 31; 59; 90; 120; 151; 181; 212; 243; 273; 304; 334] 0.

Definition days_in_month_table (m : Z) : Z :=
  nth (Z.to_nat m) [0; 31; 28; 31; 30; 31; 30; 31; 31; 30; 31; 30; 31] 0.

Definition c_days_in_month (y m : Z) : Z :=
  if (m =? 2) && is_leap y then 29 else days_in_month_table m.

Definition days_before_month (y m : Z) : Z :=
  days_before_month_table m + (if (2 <? m) && is_leap y then 1 else 0).

Definition ymd_to_ord (y m d : Z) : Z :=
  days_before_year y + days_before_month y m + d.

Definition weekday (y m d : Z) : Z := Z.rem (ymd_to_ord y m d + 6) 7.

Definition iso_week1_monday (y : Z) : Z :=
  let first_day := ymd_to_ord y 1 1 in
  let first_weekday := Z.rem (first_day + 6) 7 in
  let week1_monday := first_day - first_weekday in
  if 3 <? first_weekday then week1_monday + 7 else week1_monday.

Definition ord_to_ymd (ordinal : Z) : Z * Z * Z :=
  let o := ordinal - 1 in
  let n400 := Z.quot o 146097 in
  let n := Z.rem o 146097 in
  let n100 := Z.quot n 36524 in
  let n := Z.rem n 36524 in
  let n4 := Z.quot n 1461 in
  let n := Z.rem n 1461 in
  let n1 := Z.quot n 365 in
  let n := Z.rem n 365 in
  let y := n400 * 400 + 1 + n100 * 100 + n4 * 4 + n1 in
  if (n1 =? 4) || (n100 =? 4) then (y - 1, 12, 31)
  else
    let leapyear := (n1 =? 3) && (negb (n4 =? 24) || (n100 =? 3)) in
    let m := Z.shiftr (n + 50) 5 in
    let preceding :=
      days_before_month_table m + (if (2 <? m) && leapyear then 1 else 0) in
    if n <? preceding then
      let m' := m - 1 in
      let preceding' := preceding - c_days_in_month y m' in
      (y, m', n - preceding' + 1)
    else (y, m, n - preceding + 1).

Definition iso_to_ymd (iso_year iso_week iso_day : Z) : option (Z * Z * Z) :=
  let week_ok :=
    if (iso_week <=? 0) || (53 <=? iso_week) then
      (iso_week =? 53)
      && (let first_weekday := weekday iso_year 1 1 in
          (first_weekday =? 3) || ((first_weekday =? 2) && is_leap iso_year))
    else true in
  if negb week_ok then None
  else if (iso_day <=? 0) || (8 <=? iso_day) then None
  else
    let day_1 := iso_week1_monday iso_year in
    let day_offset := (iso_week - 1) * 7 + iso_day - 1 in
    Some (ord_to_ymd (day_1 + day_offset)).

(** Where the date part ends ([None]: nowhere). *)
Definition find_isoformat_datetime_separator (s : string) : option nat :=
  let len := String.length s in
  if (len =? 7)%nat then Some 7%nat
  else if Ascii.eqb (byte_at s 4) "-" then
    if Ascii.eqb (byte_at s 5) "W" then
      if (len <? 8)%nat then None
      else if (8 <? len)%nat && Ascii.eqb (byte_at s 8) "-" then
        if (len =? 9)%nat then None
        else if (10 <? len)%nat && is_digit (byte_at s 10) then Some 8%nat
        else Some 10%nat
      else Some 8%nat
    else Some 10%nat
  else if Ascii.eqb (byte_at s 4) "W" then
    let idx := (7 + count_digits (drop 7 s))%nat in
    if (idx <? 9)%nat then Some idx
    else if Nat.even idx then Some 7%nat
    else Some 8%nat
  else Some 8%nat.

(** The date part, of [len] characters: [YYYY-MM-DD], [YYYYMMDD] or a
    week date [YYYY-Www[-D]], [YYYYWww[D]]; the fields are not checked
    here. *)
Definition parse_isoformat_date (s : string) (len : nat) : option (Z * Z * Z) :=
  match parse_digits 4 0 s with
  | None => None
  | Some (y, p1) =>
      let uses_separator := Ascii.eqb (head p1) "-" in
      let p2 := if uses_separator then tail p1 else p1 in
      if Ascii.eqb (head p2) "W" then
        match parse_digits 2 0 (tail p2) with
        | None => None
        | Some (iso_week, p4) =>
            if (String.length s - String.length p4 <? len)%nat then
              match (if uses_separator then expect "-" p4 else Some p4) with
              | None => None
              | Some p5 =>
                  match parse_digits 1 0 p5 with
                  | None => None
                  | Some (iso_day, _) => iso_to_ymd y iso_week iso_day
                  end
              end
            else iso_to_ymd y iso_week 1
        end
      else
        match parse_digits 2 0 p2 with
        | None => None
        | Some (m, p3) =>
            match (if uses_separator then expect "-" p3 else Some p3) with
            | None => None
            | Some p4 =>
                match parse_digits 2 0 p4 with
                | None => None
                | Some (d, _) => Some (y, m, d)
                end
            end
        end
  end.

(** What follows a two-digit component of a time. *)
Inductive step :=
| Stop (more : bool)
| Next (s : string) (n : Z)
| Frac (s : string) (n : Z)
| Bad.

Definition after_component (has_separator : bool) (s : string) (n : Z)
  : step :=
  let c := head s in
  if n - 1 <=? 0 then Stop (negb (Ascii.eqb c NUL))
  else if has_separator && Ascii.eqb c ":" then Next (tail s) (n - 1)
  else if Ascii.eqb c "." || Ascii.eqb c "," then Frac (tail s) (n - 1)
  else if negb has_separator then Next s n
  else Bad.

Definition correction (to_parse : nat) : Z :=
  nth (to_parse - 1) [100000; 10000; 1000; 100; 10] 1.

Definition fraction (h m sec : Z) (s : string) (n : Z)
  : option (Z * Z * Z * Z * bool) :=
  let to_parse := Z.to_nat (Z.min 6 n) in
  match parse_digits to_parse 0 s with
  | None => None
  | Some (us, rest) =>
      let us := if (to_parse <? 6)%nat then us * correction to_parse else us in
      Some (h, m, sec, us, negb (Ascii.eqb (head (skip_digits rest)) NUL))
  end.

(** [HH[:MM[:SS[.fff]]]] or [HH[MM[SS[.fff]]]] in a buffer [s] of which [n]
    characters belong to this part; the flag tells that the part was not
    followed by the end of the string. *)
Definition parse_hh_mm_ss_ff (s : string) (n : Z)
  : option (Z * Z * Z * Z * bool) :=
  match parse_digits 2 0 s with
  | None => None
  | Some (h, s1) =>
      let has_separator := Ascii.eqb (head s1) ":" in
      match after_component has_separator s1 (n - 2) with
      | Bad => None
      | Stop more => Some (h, 0, 0, 0, more)
      | Frac s' n' => fraction h 0 0 s' n'
      | Next s' n' =>
          match parse_digits 2 0 s' with
          | None => None
          | Some (m, s2) =>
              match after_component has_separator s2 (n' - 2) with
              | Bad => None
              | Stop more => Some (h, m, 0, 0, more)
              | Frac s'' n'' => fraction h m 0 s'' n''
              | Next s'' n'' =>
                  match parse_digits 2 0 s'' with
                  | None => None
                  | Some (sec, s3) =>
                      match after_component has_separator s3 (n'' - 2) with
                      | Bad => None
                      | Stop more => Some (h, m, sec, 0, more)
                      | Frac t k => fraction h m sec t k
                      | Next t k => fraction h m sec t k
                      end
                  end
              end
          end
      end
  end.

Definition is_tz_char (c : ascii) : bool :=
  Ascii.eqb c "Z" || Ascii.eqb c "+" || Ascii.eqb c "-".

(** The index of the first of [Z], [+], [-] among the first [limit]
    characters. *)
Fixpoint find_tz (s : string) (limit : nat) : option nat :=
  match limit with
  | O => None
  | S limit' =>
      if is_tz_char (head s) then Some O
      else match find_tz (tail s) limit' with
           | Some i => Some (S i)
           | None => None
           end
  end.

(** The time and its offset, the latter in seconds and microseconds. *)
Definition parse_isoformat_time (t : string) (dtlen : Z)
  : option (Z * Z * Z * Z * option (Z * Z)) :=
  match find_tz t (Z.to_nat dtlen) with
  | None =>
      match parse_hh_mm_ss_ff t (Z.max dtlen 1) with
      | None => None
      | Some (h, m, s, us, more) =>
          if more then None else Some (h, m, s, us, None)
      end
  | Some i =>
      match parse_hh_mm_ss_ff t (Z.of_nat i) with
      | None => None
      | Some (h, m, s, us, _) =>
          let tz := drop i t in
          if Ascii.eqb (head tz) "Z" then
            if Ascii.eqb (head (tail tz)) NUL then Some (h, m, s, us, Some (0, 0))
            else None
          else
            let sign := if Ascii.eqb (head tz) "-" then -1 else 1 in
            match parse_hh_mm_ss_ff (tail tz) (dtlen - Z.of_nat i - 1) with
            | Some (th, tm, ts, tus, false) =>
                Some (h, m, s, us,
                      Some (sign * (th * 3600 + tm * 60 + ts), sign * tus))
            | _ => None
            end
      end
  end.

Record datetime := mkdatetime {
  date_part : date;
  hour : Z; minute : Z; second : Z; microsecond : Z;
  utcoffset : option Z (* microseconds east of UTC *)
}.

(** [dt.date()] *)
Definition date_of (dt : datetime) : date := date_part dt.

(** The width in bytes of the UTF-8 character that starts with [c]: the
    separator between date and time is any one character. *)
Definition utf8_width (c : ascii) : nat :=
  let b := N_of_ascii c in
  if (N.land b 128 =? 0)%N then 1%nat
  else if (N.land b 240 =? 224)%N then 3%nat
  else if (N.land b 240 =? 240)%N then 4%nat
  else 2%nat.

(** The checks of the [datetime] constructor on the time fields. *)
Definition time_ok (h m s us : Z) : bool :=
  (h <? 24) && (m <? 60) && (s <? 60) && (us <? 1000000).

(** The [timezone] of the offset: UTC for zero seconds, otherwise an
    offset strictly between minus and plus 24 hours. *)
Definition tzinfo_from_isoformat_results (tz : option (Z * Z))
  : option (option Z) :=
  match tz with
  | None => Some None
  | Some (tzoffset, tzus) =>
      if tzoffset =? 0 then Some (Some 0)
      else
        let total := tzoffset * 1000000 + tzus in
        if (-86400000000 <? total) && (total <? 86400000000)
        then Some (Some total) else None
  end.

(** [datetime.fromisoformat(s)] of CPython 3.11 (the C implementation);
    [None] stands for its [ValueError]. *)
Definition fromisoformat (s : string) : option datetime :=
  let len := String.length s in
  if (len <? 7)%nat then None
  else
    match find_isoformat_datetime_separator s with
    | None => None
    | Some sep =>
        match parse_isoformat_date s sep with
        | None => None
        | Some (y, m, d) =>
            let time :=
              if (sep <? len)%nat then
                let k := (sep + utf8_width (byte_at s sep))%nat in
                parse_isoformat_time (drop k s) (Z.of_nat len - Z.of_nat k)
              else Some (0, 0, 0, 0, None) in
            match time with
            | None => None
            | Some (h, mi, sec, us, tz) =>
                match tzinfo_from_isoformat_results tz with
                | None => None
                | Some off =>
                    if date_ok (mkdate y m d) && time_ok h mi sec us
                    then Some (mkdatetime (mkdate y m d) h mi sec us off)
                    else None
                end
            end
        end
    end.

End datetime.

(** ** [types.py] *)

Definition float : Type := spec_float.

Module RawEod.
Record t := mk {
  open : float; high : float; low : float; close : float;
  volume : float; split_factor : float; dividend : float;
  symbol : string; exchange : string;
  date : string
}.
End RawEod.

Module Eod.
Record t := mk {
  open : float; high : float; low : float; close : float;
  volume : float; split_factor : float; dividend : float;
  symbol : string; exchange : string;
  date : datetime.date
}.
End Eod.

Module Pagination.
Record t := mk { limit : Z; offset : Z; count : Z; total : Z }.
End Pagination.

Module ErrorContextSymbol.
Record t := mk { key : string; message : string }.
End ErrorContextSymbol.

Module ErrorResponse.
Record t := mk {
  code : string;
  message : string;
  context : option (list ErrorContextSymbol.t)
}.
End ErrorResponse.

(** The keys [pagination] and [data] are [Required], [error] is
    [NotRequired]; [body.get("error")] is the [option] field. *)
Module EodResponse.
Record t := mk {
  pagination : Pagination.t;
  data : list RawEod.t;
  error : option ErrorResponse.t
}.
End EodResponse.

(** What the client reads of an [aiohttp.ClientResponse]: the status and the
    parsed JSON body. *)
Module ClientResponse.
Record t := mk { status : Z; json : EodResponse.t }.
End ClientResponse.

(** ** [exceptions.py] *)

Inductive ResponseErrorClass :=
| ResponseError
| UnhandledResponseError
| UnauthorizedError
| InvalidAccessKeyError
| MissingAccessKeyError
| InactiveUserError
| ForbiddenError
| HttpsAccessRestrictedError
| FunctionAccessRestrictedError
| NotFoundError
| InvalidApiFunctionError
| ResourceNotFoundError
| TooManyRequestsError
| UsageLimitReachedError
| RateLimitReachedError
| InternalErrorError.

(** The class each one is declared a subclass of ([None]: of [Exception]). *)
Definition base_class (c : ResponseErrorClass) : option ResponseErrorClass :=
  match c with
  | ResponseError => None
  | UnhandledResponseError | UnauthorizedError | ForbiddenError
  | NotFoundError | TooManyRequestsError | InternalErrorError =>
      Some ResponseError
  | InvalidAccessKeyError | MissingAccessKeyError | InactiveUserError =>
      Some UnauthorizedError
  | HttpsAccessRestrictedError | FunctionAccessRestrictedError =>
      Some ForbiddenError
  | InvalidApiFunctionError | ResourceNotFoundError => Some NotFoundError
  | UsageLimitReachedError | RateLimitReachedError => Some TooManyRequestsError
  end.

(** The messages of the [RuntimeError]s that can reach the caller. *)
Inductive RuntimeMessage :=
| Msg_missing_error (body : EodResponse.t)
    (* f"Unexpected response {body} missing an error." *)
| Msg_not_initialized
    (* "MarketstackClient must be initialized within a context manager." *)
| Msg_session_closed
    (* aiohttp: "Session is closed" *).

(** The exceptions: an instance of one of the classes above, carrying the
    response, or one of the built-in exceptions. *)
Inductive exn :=
| ResponseException (cls : ResponseErrorClass) (response : ClientResponse.t)
| RuntimeError (msg : RuntimeMessage)
| ValueError (isoformat_string : string)
| KeyError (key : string).

(** ** The client object, the world and the coroutine monad *)

Inductive MarketstackPlan := FREE | BASIC | PROFESSIONAL | BUSINESS.

(** The value of the [IntEnum] member; comparisons of plans compare it. *)
Definition plan_value (p : MarketstackPlan) : Z :=
  match p with
  | FREE => 0
  | BASIC => 1
  | PROFESSIONAL => 2
  | BUSINESS => 3
  end.

Definition HTTP_BASE_URL : string := "http://api.marketstack.com/v1/eod".
Definition HTTPS_BASE_URL : string := "https://api.marketstack.com/v1/eod".

(** The part of [aiohttp.ClientSession] the client depends on: whether it
    has been closed. *)
Record ClientSession := mkClientSession { closed : bool }.

Record _MarketstackClient := mkClient {
  base_url : string;
  plan : MarketstackPlan;
  _client_session : option ClientSession;
  _access_key : string
}.

Record Request := mkRequest {
  url : string;
  params : list (string * string)
}.

Inductive LogLevel := DEBUG | WARNING | ERROR.

Record LogEntry := mkLog {
  level : LogLevel;
  event : string;
  actual_length : option nat
}.

(** The client object, the GET requests that were sent (oldest first) and
    the log lines written (oldest first). *)
Record World := mkWorld {
  self : _MarketstackClient;
  sent : list Request;
  logged : list LogEntry
}.

Inductive Outcome (A : Type) :=
| Returned (a : A)
| Raised (e : exn).
Arguments Returned {A} a.
Arguments Raised {A} e.

Definition M (A : Type) : Type := World -> Outcome A * World.

Definition ret {A} (a : A) : M A := fun w => (Returned a, w).

Definition raise {A} (e : exn) : M A := fun w => (Raised e, w).

Definition bind {A B} (m : M A) (f : A -> M B) : M B :=
  fun w =>
    match m w with
    | (Returned a, w') => f a w'
    | (Raised e, w') => (Raised e, w')
    end.

Declare Scope py_scope.
Delimit Scope py_scope with py.
Notation "x <- m ;; k" := (bind m (fun x => k))
  (at level 61, m at next level, right associativity) : py_scope.
Notation "m ;;; k" := (bind m (fun _ => k))
  (at level 61, right associativity) : py_scope.
Local Open Scope py_scope.

Definition get_self : M _MarketstackClient := fun w => (Returned (self w), w).

Definition set_client_session (s : option ClientSession) : M unit :=
  fun w =>
    (Returned tt,
     mkWorld (mkClient (base_url (self w)) (plan (self w)) s
                       (_access_key (self w)))
             (sent w) (logged w)).

Definition write_log (e : LogEntry) : M unit :=
  fun w => (Returned tt, mkWorld (self w) (sent w) (logged w ++ [e])).

Definition log_debug (ev : string) : M unit := write_log (mkLog DEBUG ev None).
Definition log_warning (ev : string) : M unit :=
  write_log (mkLog WARNING ev None).
Definition log_error (ev : string) (act_len : nat) : M unit :=
  write_log (mkLog ERROR ev (Some act_len)).

(** [tuple(f(x) for x in xs)], stopping at the first exception. *)
Fixpoint mapM {A B} (f : A -> M B) (xs : list A) : M (list B) :=
  match xs with
  | [] => ret []
  | x :: xs' => y <- f x ;; ys <- mapM f xs' ;; ret (y :: ys)
  end.

(** ** [_MarketstackClient] *)

Inductive map_key := KInt (status : Z) | KStr (name : string).

Definition map_key_eqb (a b : map_key) : bool :=
  match a, b with
  | KInt x, KInt y => Z.eqb x y
  | KStr x, KStr y => String.eqb x y
  | _, _ => false
  end.

(** The table of [_handle_if_error]; a [lambda: C(resp)] is stored as the
    class [C] it instantiates on the response at hand. *)
Definition err_map : list (map_key * list (string * ResponseErrorClass)) :=
  [ (KInt 401%Z,
      [ ("invalid_access_key", InvalidAccessKeyError);
        ("missing_access_key", MissingAccessKeyError);
        ("inactive_user", InactiveUserError);
        ("default", UnauthorizedError) ]);
    (KInt 403%Z,
      [ ("https_access_restricted", HttpsAccessRestrictedError);
        ("function_access_restricted", FunctionAccessRestrictedError);
        ("default", ForbiddenError) ]);
    (KInt 404%Z,
      [ ("invalid_api_function", InvalidApiFunctionError);
        ("404_not_found", ResourceNotFoundError);
        ("default", NotFoundError) ]);
    (KInt 429%Z,
      [ ("usage_limit_reached", UsageLimitReachedError);
        ("rate_limit_reached", RateLimitReachedError);
        ("default", TooManyRequestsError) ]);
    (KInt 500%Z,
      [ ("default", InternalErrorError) ]);
    (KStr "default",
      [ ("default", UnhandledResponseError) ]) ].

(** [d[k]] on the tables above: a missing key raises [KeyError]. *)
Definition subscript {V} (k : map_key) (d : list (map_key * V)) : M V :=
  match dict_get map_key_eqb k d with
  | Some v => ret v
  | None => raise (KeyError match k with KStr s => s | KInt _ => "" end)
  end.

Definition subscript_str {V} (k : string) (d : list (string * V)) : M V :=
  match dict_get String.eqb k d with
  | Some v => ret v
  | None => raise (KeyError k)
  end.

Definition _handle_if_error (resp : ClientResponse.t) (body : EodResponse.t)
  : M unit :=
  let http_code_ok := 200%Z in
  if (ClientResponse.status resp =? http_code_ok)%Z then ret tt
  else
    log_warning "Unsuccessful response." ;;;
    if negb (dict_mem map_key_eqb (KInt (ClientResponse.status resp)) err_map)
    then
      dflt <- subscript (KStr "default") err_map ;;
      default_exc <- subscript_str "default" dflt ;;
      raise (ResponseException default_exc resp)
    else
      let err_response := EodResponse.error body in
      match err_response with
      | None => raise (RuntimeError (Msg_missing_error body))
      | Some err_response =>
          by_status <- subscript (KInt (ClientResponse.status resp)) err_map ;;
          status_default <- subscript_str "default" by_status ;;
          let error :=
            dict_get_default String.eqb
              (ErrorResponse.message err_response) status_default by_status in
          raise (ResponseException error resp)
      end.

(** The property [_session]. *)
Definition _session : M ClientSession :=
  me <- get_self ;;
  match _client_session me with
  | None => raise (RuntimeError Msg_not_initialized)
  | Some s => ret s
  end.

Definition _format_date (d : datetime.date) : string := datetime.strftime_Ymd d.

Definition _deserialize_eod (raw_eod : RawEod.t) : M Eod.t :=
  match datetime.fromisoformat (RawEod.date raw_eod) with
  | None => raise (ValueError (RawEod.date raw_eod))
  | Some dt =>
      ret (Eod.mk (RawEod.open raw_eod) (RawEod.high raw_eod)
                  (RawEod.low raw_eod) (RawEod.close raw_eod)
                  (RawEod.volume raw_eod) (RawEod.split_factor raw_eod)
                  (RawEod.dividend raw_eod) (RawEod.symbol raw_eod)
                  (RawEod.exchange raw_eod) (datetime.date_of dt))
  end.

(** [ClientSession.close()]: the one session object is the one the client
    holds, so closing it updates the client's field. *)
Definition session_close : M unit :=
  me <- get_self ;;
  match _client_session me with
  | None => ret tt
  | Some _ => set_client_session (Some (mkClientSession true))
  end.

(** [async with self._session as sess: body].  The property is read first;
    entering an [aiohttp.ClientSession] returns the session itself, and
    leaving it closes the session, on the normal and on the exceptional
    path. *)
Definition async_with_session {A} (body : M A) : M A :=
  _ <- _session ;;
  fun w =>
    let (r, w') := body w in
    match session_close w' with
    | (_, w'') => (r, w'')
    end.

(** ** Asynchronous generators

    An asynchronous generator runs only while its consumer asks for the
    next item.  The generator is embedded together with the [async for]
    that drives it: where the source has [yield d], the consumer's body
    runs on [d].  Driving ends in one of three ways.  The generator
    returns: it has left its blocks, and the consumer keeps what it
    accumulated.  The generator raises: the exception unwinds its blocks
    and reaches the consumer.  The consumer's own body raises: the
    iteration is abandoned with the generator suspended at its [yield],
    inside whatever blocks enclose it, and none of their exits has run
    when the exception leaves the consumer.  (The event loop finalizes an
    abandoned generator once it is collected; that is after the call has
    raised, and outside this embedding.) *)
Inductive Driven (A : Type) : Type :=
| Exhausted (acc : A)
| Abandoned (e : exn).

Arguments Exhausted {A} acc.
Arguments Abandoned {A} e.

(** [for d in ds: yield d], with [consume] the consumer's body. *)
Fixpoint yield_each {A} (consume : A -> RawEod.t -> M A)
    (ds : list RawEod.t) (acc : A) : M (Driven A) :=
  match ds with
  | [] => ret (Exhausted acc)
  | d :: ds' =>
      fun w =>
        match consume acc d w with
        | (Returned acc', w') => yield_each consume ds' acc' w'
        | (Raised e, w') => (Returned (Abandoned e), w')
        end
  end.

(** [async with self._session as sess: body] in a generator.  The block
    is left, and the session closed, when the body returns or raises; an
    abandoned generator is still inside the block, with the session as it
    was. *)
Definition async_with_session_yielding {A} (body : M (Driven A))
  : M (Driven A) :=
  _ <- _session ;;
  fun w =>
    match body w with
    | (Returned (Abandoned e), w') => (Returned (Abandoned e), w')
    | (r, w') =>
        match session_close w' with
        | (_, w'') => (r, w'')
        end
    end.

(** [async for d in gen: ...] to its end: the value is what the consumer
    accumulated, the exception the generator's or the consumer's own. *)
Definition async_for {A} (gen : M (Driven A)) : M A :=
  fun w =>
    match gen w with
    | (Returned (Exhausted acc), w') => (Returned acc, w')
    | (Returned (Abandoned e), w') => (Raised e, w')
    | (Raised e, w') => (Raised e, w')
    end.

Definition exchange_param (exchange_filter : option string)
  : list (string * string) :=
  match exchange_filter with
  | None => []
  | Some e => [("exchange", e)]
  end.

Section Transport.

(** The remote end: the response to the request, given how many requests
    were answered before it. *)
Variable server : nat -> Request -> ClientResponse.t.

(** [sess.get(url, params=params)] followed by [await resp.json()], where
    [sess] is the session the client holds.  A closed session refuses with
    aiohttp's [RuntimeError] before anything is sent.  Without a session
    there is no [sess]: the property [_session], read by the enclosing
    [async with], has raised before this point. *)
Definition session_get (u : string) (ps : list (string * string))
  : M ClientResponse.t :=
  fun w =>
    match _client_session (self w) with
    | Some sess =>
        if closed sess then (Raised (RuntimeError Msg_session_closed), w)
        else
          let req := mkRequest u ps in
          (Returned (server (List.length (sent w)) req),
           mkWorld (self w) (sent w ++ [req]) (logged w))
    | None => (Raised (RuntimeError Msg_not_initialized), w)
    end.

(** The loop [for _ in range(n)] of [_get_eod_range_helper]: the rows of
    a page are yielded, and so consumed, before the next page is
    requested. *)
Fixpoint page_loop {A} (consume : A -> RawEod.t -> M A)
    (u : string) (ps : list (string * string)) (n : nat) (acc : A)
  : M (Driven A) :=
  match n with
  | O => ret (Exhausted acc)
  | S n' =>
      resp <- session_get u ps ;;
      let body := ClientResponse.json resp in
      log_debug "Finished Query." ;;;
      _handle_if_error resp body ;;;
      r <- yield_each consume (EodResponse.data body) acc ;;
      match r with
      | Abandoned e => ret (Abandoned e)
      | Exhausted acc' =>
          let p := EodResponse.pagination body in
          let total_so_far :=
            (Pagination.limit p * Pagination.offset p
             + Pagination.count p)%Z in
          if (total_so_far
              =? Pagination.total (EodResponse.pagination body))%Z
          then ret (Exhausted acc')
          else page_loop consume u ps n' acc'
      end
  end.

Definition range_params (me : _MarketstackClient) (symbols : list string)
    (date_range : datetime.date * datetime.date)
    (exchange_filter : option string) : list (string * string) :=
  [ ("access_key", _access_key me);
    ("symbols", String.concat "," symbols);
    ("date_from", _format_date (fst date_range));
    ("date_to", _format_date (snd date_range));
    ("limit", "1000") ] ++ exchange_param exchange_filter.

(** The generator, driven by [consume] from the accumulator [acc]. *)
Definition _get_eod_range_helper {A} (symbols : list string)
    (date_range : datetime.date * datetime.date)
    (exchange_filter : option string) (max_requests : Z)
    (consume : A -> RawEod.t -> M A) (acc : A) : M A :=
  async_for (
    async_with_session_yielding (
      me <- get_self ;;
      let u := base_url me in
      let ps := range_params me symbols date_range exchange_filter in
      page_loop consume u ps (Z.to_nat max_requests) acc)).

(** The body of the comprehension
    [[self._deserialize_eod(d) async for d in ...]]. *)
Definition collect_eod (acc : list Eod.t) (d : RawEod.t) : M (list Eod.t) :=
  e <- _deserialize_eod d ;; ret (acc ++ [e]).

Definition get_eod_range (symbols : list string)
    (date_range : datetime.date * datetime.date)
    (exchange_filter : option string) (max_requests : Z)
  : M (list Eod.t) :=
  _get_eod_range_helper symbols date_range exchange_filter max_requests
    collect_eod [].

Definition get_eod (symbols : list string)
    (transaction_date : datetime.date) (exchange_filter : option string)
  : M (list Eod.t) :=
  me <- get_self ;;
  if (plan_value (plan me) <? plan_value BASIC)%Z then
    get_eod_range symbols (transaction_date, transaction_date)
      exchange_filter 10
  else
    async_with_session (
      let u :=
        (base_url me ++ "/" ++ _format_date transaction_date)%string in
      let ps :=
        [ ("access_key", _access_key me);
          ("symbols", String.concat "," symbols) ]
        ++ exchange_param exchange_filter in
      resp <- session_get u ps ;;
      let body := ClientResponse.json resp in
      log_debug "Finished Query." ;;;
      _handle_if_error resp body ;;;
      let act_len := List.length (EodResponse.data body) in
      (if negb (act_len =? 1)
       then log_error "Length of the response data is not 1" act_len
       else ret tt) ;;;
      mapM _deserialize_eod (EodResponse.data body)).

End Transport.

(** [__aenter__]: a fresh, open session replaces whatever was stored. *)
Definition __aenter__ : M unit :=
  set_client_session (Some (mkClientSession false)).

(** [__aexit__]: closes the session read through the property. *)
Definition __aexit__ : M unit :=
  _ <- _session ;; session_close.

(** [_MarketstackClient.__init__]. *)
Definition _MarketstackClient__init__ (base : string) (access_key : string)
    (p : MarketstackPlan) : _MarketstackClient :=
  mkClient base p None access_key.

(** The constructors return the object together with the warnings issued
    through [warnings.warn]. *)
Definition HttpMarketstackClient (access_key : string) (p : MarketstackPlan)
  : list string * _MarketstackClient :=
  ([], _MarketstackClient__init__ HTTP_BASE_URL access_key p).

Definition HttpsMarketstackClient (access_key : string) (p : MarketstackPlan)
  : list string * _MarketstackClient :=
  ((match p with
    | FREE => ["Using the free plan isn't likely to work over SSL."]
    | _ => []
    end),
   _MarketstackClient__init__ HTTP_BASE_URL access_key p).

(** A world around a client object: nothing sent, nothing logged. *)
Definition fresh_world (c : _MarketstackClient) : World := mkWorld c [] [].


(** * Specification *)

(** ** The response classifier *)

(** The statuses that have a row of their own in the table. *)
Definition known_status (status : Z) : bool :=
  ((status =? 401) || (status =? 403) || (status =? 404)
   || (status =? 429) || (status =? 500))%Z.

(** The two-level table as the specification words it, with the sub-codes
    the provider documents: the status selects the row, the sub-code the
    class, an unlisted sub-code the default of the row, an unlisted status
    the global default. *)
Definition table_kind (status : Z) (sub_code : string) : ResponseErrorClass :=
  if (status =? 401)%Z then
    if (sub_code =? "invalid_access_key")%string then InvalidAccessKeyError
    else if (sub_code =? "missing_access_key")%string
    then MissingAccessKeyError
    else if (sub_code =? "inactive_user")%string then InactiveUserError
    else UnauthorizedError
  else if (status =? 403)%Z then
    if (sub_code =? "https_access_restricted")%string
    then HttpsAccessRestrictedError
    else if (sub_code =? "function_access_restricted")%string
    then FunctionAccessRestrictedError
    else ForbiddenError
  else if (status =? 404)%Z then
    if (sub_code =? "invalid_api_function")%string
    then InvalidApiFunctionError
    else if (sub_code =? "404_not_found")%string then ResourceNotFoundError
    else NotFoundError
  else if (status =? 429)%Z then
    if (sub_code =? "usage_limit_reached")%string then UsageLimitReachedError
    else if (sub_code =? "rate_limit_reached")%string
    then RateLimitReachedError
    else TooManyRequestsError
  else if (status =? 500)%Z then InternalErrorError
  else UnhandledResponseError.

(** The world after [log.warning("Unsuccessful response.")]. *)
Definition warned (w : World) : World :=
  mkWorld (self w) (sent w)
          (logged w ++ [mkLog WARNING "Unsuccessful response." None]).

(** ** The session *)

Definition session_open (w : World) : Prop :=
  _client_session (self w) = Some (mkClientSession false).

Definition session_closed (w : World) : Prop :=
  _client_session (self w) = Some (mkClientSession true).

(** The client object once its session has been closed. *)
Definition closed_client (me : _MarketstackClient) : _MarketstackClient :=
  mkClient (base_url me) (plan me) (Some (mkClientSession true))
           (_access_key me).

(** The world once the session the client holds has been closed. *)
Definition closed_world (w : World) : World :=
  mkWorld (closed_client (self w)) (sent w) (logged w).

(** ** Requests and pages *)

(** The request every iteration of the ranged query sends. *)
Definition range_request (me : _MarketstackClient) (symbols : list string)
    (date_range : datetime.date * datetime.date)
    (exchange_filter : option string) : Request :=
  mkRequest (base_url me)
            (range_params me symbols date_range exchange_filter).

(** The request of the single-date query, to the date-scoped endpoint. *)
Definition date_request (me : _MarketstackClient) (symbols : list string)
    (transaction_date : datetime.date) (exchange_filter : option string)
  : Request :=
  mkRequest (base_url me ++ "/" ++ _format_date transaction_date)%string
            ([ ("access_key", _access_key me);
               ("symbols", String.concat "," symbols) ]
             ++ exchange_param exchange_filter).

(** The requests that were sent between the world [w] and the later world
    [w']. *)
Definition issued (w w' : World) : list Request :=
  skipn (List.length (sent w)) (sent w').

(** The world after [k] answered requests [req], each one logged. *)
Definition after_requests (req : Request) (k : nat) (w : World) : World :=
  mkWorld (self w) (sent w ++ repeat req k)
          (logged w ++ repeat (mkLog DEBUG "Finished Query." None) k).

(** The world after the one request of a single-date query on [n] rows. *)
Definition after_date_query (req : Request) (n : nat) (w : World) : World :=
  mkWorld (self w) (sent w ++ [req])
          (logged w
           ++ [mkLog DEBUG "Finished Query." None]
           ++ (if n =? 1 then []
               else [mkLog ERROR "Length of the response data is not 1"
                           (Some n)])).

(** The [i]-th response a call receives when it starts in the world [w] and
    keeps sending [req]. *)
Definition page (server : nat -> Request -> ClientResponse.t) (req : Request)
    (w : World) (i : nat) : ClientResponse.t :=
  server (List.length (sent w) + i) req.

(** [seen = limit * offset + count], from one page's own metadata. *)
Definition seen (r : ClientResponse.t) : Z :=
  let p := EodResponse.pagination (ClientResponse.json r) in
  (Pagination.limit p * Pagination.offset p + Pagination.count p)%Z.

Definition reported_total (r : ClientResponse.t) : Z :=
  Pagination.total (EodResponse.pagination (ClientResponse.json r)).

Definition rows (r : ClientResponse.t) : list RawEod.t :=
  EodResponse.data (ClientResponse.json r).

(** All the rows of the first [k] pages, in order. *)
Definition rows_upto (server : nat -> Request -> ClientResponse.t)
    (req : Request) (w : World) (k : nat) : list RawEod.t :=
  flat_map (fun i => rows (page server req w i)) (seq 0 k).

(** The consumer that keeps the rows as the generator yields them. *)
Definition collect_raw (acc : list RawEod.t) (d : RawEod.t)
  : M (list RawEod.t) :=
  ret (acc ++ [d]).

(** ** Rows and records *)

(** A row whose date the library can read. *)
Definition row_ok (d : RawEod.t) : bool :=
  match datetime.fromisoformat (RawEod.date d) with
  | Some _ => true
  | None => false
  end.

(** The record [_deserialize_eod] builds from a row and the parsed date. *)
Definition eod_of (d : RawEod.t) (day : datetime.date) : Eod.t :=
  Eod.mk (RawEod.open d) (RawEod.high d) (RawEod.low d) (RawEod.close d)
         (RawEod.volume d) (RawEod.split_factor d) (RawEod.dividend d)
         (RawEod.symbol d) (RawEod.exchange d) day.

(** The pure reading of [_deserialize_eod] on a row that parses; the date
    of a row that does not is never asked for. *)
Definition deserialized (d : RawEod.t) : Eod.t :=
  match datetime.fromisoformat (RawEod.date d) with
  | Some dt => eod_of d (datetime.date_of dt)
  | None => eod_of d (datetime.mkdate 1 1 1)
  end.

(** ** What a coroutine may do to the client and to the network *)

(** [quiet m]: [m] sends nothing and leaves the client object alone. *)
Definition quiet {A} (m : M A) : Prop :=
  forall w, self (snd (m w)) = self w /\ sent (snd (m w)) = sent w.

(** [sends req n m]: [m] leaves the client object alone and sends the
    request [req] at most [n] times, and nothing else. *)
Definition sends (req : Request) (n : nat) {A} (m : M A) : Prop :=
  forall w,
    self (snd (m w)) = self w /\
    exists j, j <= n /\ sent (snd (m w)) = sent w ++ repeat req j.

(** ** Sample data *)

Module Sample.

(** The positive double [m * 2 ^ e]. *)
Definition double (m : positive) (e : Z) : float := S754_finite false m e.

(** AMZN on 2023-07-17: open 134.56, high 135.62, low 133.21, close 133.56,
    volume 48450200, split factor 1, dividend 0. *)
Definition amzn : RawEod.t :=
  RawEod.mk (double 4734409108273234 (-45)) (double 4771704542687396 (-45))
            (double 4686910205953311 (-45)) (double 4699224736184402 (-45))
            (double 6502875765145600 (-27)) (double 4503599627370496 (-52))
            (S754_zero false)
            "AMZN" "XNAS" "2023-07-17T00:00:00+0000".

(** MSFT on 2023-07-17: open 345.68, high 346.99, low 342.20, close 345.73,
    volume 20363900, split factor 1, dividend 0. *)
Definition msft : RawEod.t :=
  RawEod.mk (double 6081266871833723 (-44)) (double 6104312635551908 (-44))
            (double 6020046064399155 (-44)) (double 6082146481135944 (-44))
            (double 5466392782438400 (-28)) (double 4503599627370496 (-52))
            (S754_zero false)
            "MSFT" "XNAS" "2023-07-17T00:00:00+0000".

(** The AMZN row with its date as [_format_date] prints it. *)
Definition amzn_printed : RawEod.t :=
  RawEod.mk (RawEod.open amzn) (RawEod.high amzn) (RawEod.low amzn)
            (RawEod.close amzn) (RawEod.volume amzn)
            (RawEod.split_factor amzn) (RawEod.dividend amzn)
            (RawEod.symbol amzn) (RawEod.exchange amzn)
            (_format_date (datetime.mkdate 2023 7 17)).

Definition july_17 : datetime.date := datetime.mkdate 2023 7 17.

Definition page_of (limit offset count total : Z) (ds : list RawEod.t)
  : ClientResponse.t :=
  ClientResponse.mk 200
    (EodResponse.mk (Pagination.mk limit offset count total) ds None).

(** A failure response; the classifier reads neither [pagination] nor
    [data], left empty here. *)
Definition failure (status : Z) (e : option ErrorResponse.t)
  : ClientResponse.t :=
  ClientResponse.mk status (EodResponse.mk (Pagination.mk 0 0 0 0) [] e).

(** An envelope whose [code] and [message] hold the same string. *)
Definition envelope (sub_code : string) : ErrorResponse.t :=
  ErrorResponse.mk sub_code sub_code None.

Definition invalid_key : ClientResponse.t :=
  failure 401 (Some (envelope "invalid_access_key")).

Definition resource_missing : ClientResponse.t :=
  failure 404 (Some (envelope "resource_not_found")).

(** The provider's code with a sentence as the message. *)
Definition invalid_key_sentence : ClientResponse.t :=
  failure 401
    (Some (ErrorResponse.mk "invalid_access_key"
             "You have not supplied a valid API Access Key." None)).

Definition teapot : ClientResponse.t := failure 418 None.

Definition unexplained : ClientResponse.t := failure 500 None.

(** A server that answers every request with the same response. *)
Definition always (r : ClientResponse.t) : nat -> Request -> ClientResponse.t :=
  fun _ _ => r.

Definition client (p : MarketstackPlan) : _MarketstackClient :=
  snd (HttpMarketstackClient "key" p).

(** A client in its scope: constructed, then entered. *)
Definition entered (p : MarketstackPlan) : World :=
  snd (__aenter__ (fresh_world (client p))).

(** A client after its scope: constructed, entered, then left. *)
Definition left (p : MarketstackPlan) : World :=
  snd (__aexit__ (entered p)).

End Sample.

(** ** The users of the client *)

(** [async with client: body], as the tests and the example use the
    client: [__aenter__], the body, then [__aexit__] on the normal and on
    the exceptional path.  [__aexit__] returns [None], so an exception of
    the body is raised again after it; an exception of [__aexit__] itself
    takes its place. *)
Definition async_with_client {A} (body : M A) : M A :=
  __aenter__ ;;;
  fun w =>
    let (r, w1) := body w in
    match __aexit__ w1 with
    | (Returned _, w2) => (r, w2)
    | (Raised e, w2) => (Raised e, w2)
    end.

(** ** The class hierarchy *)

Definition class_eq_dec (a b : ResponseErrorClass) : {a = b} + {a <> b}.
Proof. decide equality. Defined.

Definition class_eqb (a b : ResponseErrorClass) : bool :=
  if class_eq_dec a b then true else false.

(** [issubclass(c, target)]: [target] is [c] or is reached from [c] along
    the declared base classes; the hierarchy is two levels deep. *)
Fixpoint issubclass_upto (depth : nat) (c target : ResponseErrorClass)
  : bool :=
  class_eqb c target
  || match depth with
     | O => false
     | S depth' =>
         match base_class c with
         | Some parent => issubclass_upto depth' parent target
         | None => false
         end
     end.

Definition issubclass (c target : ResponseErrorClass) : bool :=
  issubclass_upto 2 c target.

(** The class a caller may catch for a status: the default of the row of
    the status, the global default outside the table. *)
Definition status_family (status : Z) : ResponseErrorClass :=
  if (status =? 401)%Z then UnauthorizedError
  else if (status =? 403)%Z then ForbiddenError
  else if (status =? 404)%Z then NotFoundError
  else if (status =? 429)%Z then TooManyRequestsError
  else if (status =? 500)%Z then InternalErrorError
  else UnhandledResponseError.

(** The exception [_handle_if_error] raises on a response that is not a
    200, read off its branches. *)
Definition failure_of (resp : ClientResponse.t) (body : EodResponse.t) : exn :=
  if known_status (ClientResponse.status resp) then
    match EodResponse.error body with
    | None => RuntimeError (Msg_missing_error body)
    | Some env =>
        ResponseException
          (table_kind (ClientResponse.status resp) (ErrorResponse.message env))
          resp
    end
  else ResponseException UnhandledResponseError resp.

(** ** Servers and timestamps *)

(** A server whose answer depends on the request alone. *)
Definition stateless (server : nat -> Request -> ClientResponse.t) : Prop :=
  forall i j req, server i req = server j req.

(** The calendar date [YYYY-MM-DD] spelled from three numbers, valid or
    not: four digits, two and two. *)
Definition spelled (y m d : Z) : string :=
  (datetime.pad4 y ++ "-" ++ datetime.pad2 m ++ "-" ++ datetime.pad2 d)%string.

(** The timestamp [YYYY-MM-DDThh:mm:ss+0000] of the day [d], as the
    provider stamps its rows. *)
Definition timestamp (d : datetime.date) (h m s : Z) : string :=
  (spelled (datetime.year d) (datetime.month d) (datetime.day d) ++ "T"
   ++ datetime.pad2 h ++ ":" ++ datetime.pad2 m ++ ":" ++ datetime.pad2 s
   ++ "+0000")%string.

(** A reader of what [_format_date] prints: the digits up to the first
    dash are the year, however many they are.  It is the inverse that
    shows [_format_date] to tell dates apart; the code has no such
    reader. *)
Definition read_Ymd (s : string) : option datetime.date :=
  match datetime.parse_digits (datetime.count_digits s) 0 s with
  | None => None
  | Some (y, s1) =>
      match datetime.expect "-" s1 with
      | None => None
      | Some s2 =>
          match datetime.parse_digits 2 0 s2 with
          | None => None
          | Some (m, s3) =>
              match datetime.expect "-" s3 with
              | None => None
              | Some s4 =>
                  match datetime.parse_digits 2 0 s4 with
                  | Some (d, _) => Some (datetime.mkdate y m d)
                  | None => None
                  end
              end
          end
      end
  end.

(** A row with the given date field. *)
Definition with_date (raw : RawEod.t) (s : string) : RawEod.t :=
  RawEod.mk (RawEod.open raw) (RawEod.high raw) (RawEod.low raw)
            (RawEod.close raw) (RawEod.volume raw) (RawEod.split_factor raw)
            (RawEod.dividend raw) (RawEod.symbol raw) (RawEod.exchange raw) s.

(** The request a single-date query sends in the world [w]: to the
    collection endpoint below BASIC, to the date-scoped endpoint from BASIC
    on. *)
Definition single_date_request (w : World) (symbols : list string)
    (d : datetime.date) (exchange_filter : option string) : Request :=
  if (plan_value (plan (self w)) <? plan_value BASIC)%Z
  then range_request (self w) symbols (d, d) exchange_filter
  else date_request (self w) symbols d exchange_filter.

(** ** Scenarios of the tests *)

Module Scenario.

(** The provider's answer to a bad key. *)
Definition bad_key : ClientResponse.t := Sample.invalid_key_sentence.

(** The AMZN row carrying 30 February. *)
Definition impossible_day : RawEod.t := with_date Sample.amzn "2023-02-30".

(** A first page that does not report completion. *)
Definition partial_page : ClientResponse.t :=
  Sample.page_of 1000 0 1 5 [Sample.amzn].

Definition complete_page : ClientResponse.t :=
  Sample.page_of 1000 0 1 1 [Sample.amzn].

(** A server that answers one good, incomplete page and then a 500 without
    an envelope. *)
Definition page_then_failure : nat -> Request -> ClientResponse.t :=
  fun i _ => match i with O => partial_page | _ => Sample.unexplained end.

End Scenario.

(** * Verification *)

Ltac split_status :=
  repeat match goal with
         | |- context [Z.eqb ?a ?b] => destruct (Z.eqb_spec a b); simpl
         end.

Ltac split_key :=
  repeat match goal with
         | |- context [String.eqb ?a ?b] =>
             destruct (String.eqb_spec a b); simpl
         end.

(** ** The classifier, case by case *)

Lemma dict_mem_err_map (status : Z) :
  dict_mem map_key_eqb (KInt status) err_map = known_status status.
Proof.
  unfold dict_mem, known_status, err_map; simpl.
  split_status; reflexivity.
Qed.

Lemma handle_if_error_ok resp body w :
  ClientResponse.status resp = 200%Z ->
  _handle_if_error resp body w = (Returned tt, w).
Proof.
  intros H. unfold _handle_if_error. rewrite H. reflexivity.
Qed.

Lemma handle_if_error_unknown resp body w :
  ClientResponse.status resp <> 200%Z ->
  known_status (ClientResponse.status resp) = false ->
  _handle_if_error resp body w =
    (Raised (ResponseException UnhandledResponseError resp), warned w).
Proof.
  intros H K. unfold _handle_if_error.
  destruct (Z.eqb_spec (ClientResponse.status resp) 200); [contradiction|].
  unfold bind at 1. simpl.
  rewrite dict_mem_err_map, K. reflexivity.
Qed.

Lemma handle_if_error_missing resp body w :
  known_status (ClientResponse.status resp) = true ->
  EodResponse.error body = None ->
  _handle_if_error resp body w =
    (Raised (RuntimeError (Msg_missing_error body)), warned w).
Proof.
  intros K E. unfold _handle_if_error.
  destruct (Z.eqb_spec (ClientResponse.status resp) 200) as [e|_].
  - rewrite e in K. discriminate K.
  - unfold bind at 1. simpl.
    rewrite dict_mem_err_map, K, E. reflexivity.
Qed.

Lemma handle_if_error_envelope resp body env w :
  known_status (ClientResponse.status resp) = true ->
  EodResponse.error body = Some env ->
  _handle_if_error resp body w =
    (Raised (ResponseException
               (table_kind (ClientResponse.status resp)
                           (ErrorResponse.message env)) resp),
     warned w).
Proof.
  intros K E. unfold _handle_if_error.
  destruct (Z.eqb_spec (ClientResponse.status resp) 200) as [e|_].
  - rewrite e in K. discriminate K.
  - unfold bind at 1. simpl.
    rewrite dict_mem_err_map, K, E. simpl.
    revert K. unfold known_status, table_kind, subscript, err_map.
    generalize (ErrorResponse.message env) as k.
    generalize (ClientResponse.status resp) as s.
    intros s k. simpl.
    split_status; try discriminate; intros _; subst;
      unfold bind, subscript_str, dict_get_default; simpl;
      split_key; subst; try reflexivity; try discriminate.
Qed.

(** ** Footprints *)

Lemma quiet_ret {A} (a : A) : quiet (ret a).
Proof. intros w; split; reflexivity. Qed.

Lemma quiet_raise {A} (e : exn) : quiet (@raise A e).
Proof. intros w; split; reflexivity. Qed.

Lemma quiet_write_log e : quiet (write_log e).
Proof. intros w; split; reflexivity. Qed.

Lemma quiet_bind {A B} (m : M A) (f : A -> M B) :
  quiet m -> (forall a, quiet (f a)) -> quiet (bind m f).
Proof.
  intros Hm Hf w. unfold bind. specialize (Hm w).
  destruct (m w) as [[a|e] w']; simpl in Hm.
  - destruct (Hf a w') as [H1 H2]. destruct Hm as [H3 H4].
    split; congruence.
  - exact Hm.
Qed.

Lemma quiet_handle_if_error resp body : quiet (_handle_if_error resp body).
Proof.
  intros w.
  destruct (Z.eq_dec (ClientResponse.status resp) 200) as [H|H].
  - rewrite (handle_if_error_ok _ _ _ H). split; reflexivity.
  - destruct (known_status (ClientResponse.status resp)) eqn:K.
    + destruct (EodResponse.error body) as [env|] eqn:E.
      * rewrite (handle_if_error_envelope _ _ _ _ K E). split; reflexivity.
      * rewrite (handle_if_error_missing _ _ _ K E). split; reflexivity.
    + rewrite (handle_if_error_unknown _ _ _ H K). split; reflexivity.
Qed.

Lemma quiet_deserialize_eod d : quiet (_deserialize_eod d).
Proof.
  intros w. unfold _deserialize_eod.
  destruct (datetime.fromisoformat (RawEod.date d)); split; reflexivity.
Qed.

Lemma quiet_collect_eod acc d : quiet (collect_eod acc d).
Proof.
  apply quiet_bind; [apply quiet_deserialize_eod|intros; apply quiet_ret].
Qed.

Lemma quiet_yield_each {A} (f : A -> RawEod.t -> M A) (xs : list RawEod.t) :
  (forall a x, quiet (f a x)) -> forall acc, quiet (yield_each f xs acc).
Proof.
  intros Hf. induction xs as [|x xs IH]; intros acc w; simpl.
  - split; reflexivity.
  - destruct (Hf acc x w) as [H1 H2].
    destruct (f acc x w) as [[a|e] w']; simpl in *.
    + destruct (IH a w') as [H3 H4]. split; congruence.
    + split; assumption.
Qed.

Lemma quiet_mapM {A B} (f : A -> M B) (xs : list A) :
  (forall x, quiet (f x)) -> quiet (mapM f xs).
Proof.
  intros Hf. induction xs as [|x xs IH]; simpl.
  - apply quiet_ret.
  - apply quiet_bind; [apply Hf|intros y].
    apply quiet_bind; [exact IH|intros; apply quiet_ret].
Qed.

Lemma quiet_sends req n {A} (m : M A) : quiet m -> sends req n m.
Proof.
  intros H w. destruct (H w) as [H1 H2]. split; [exact H1|].
  exists 0. split; [lia|]. simpl. now rewrite app_nil_r.
Qed.

Lemma sends_bind req a b {A B} (m : M A) (f : A -> M B) :
  sends req a m -> (forall x, sends req b (f x)) ->
  sends req (a + b) (bind m f).
Proof.
  intros Hm Hf w. unfold bind. specialize (Hm w).
  destruct (m w) as [[x|e] w']; simpl in Hm.
  - destruct Hm as [H1 [j [Hj H2]]].
    destruct (Hf x w') as [H3 [k [Hk H4]]].
    split; [congruence|]. exists (j + k). split; [lia|].
    rewrite H4, H2, <- app_assoc, repeat_app. reflexivity.
  - destruct Hm as [H1 [j [Hj H2]]]. split; [exact H1|].
    exists j. split; [lia|exact H2].
Qed.

Lemma quiet_then_sends req n {A B} (m : M A) (f : A -> M B) :
  quiet m -> (forall x, sends req n (f x)) -> sends req n (bind m f).
Proof.
  intros Hm Hf. apply (sends_bind req 0 n); [|exact Hf].
  now apply quiet_sends.
Qed.

Lemma sends_session_get server u ps :
  sends (mkRequest u ps) 1 (session_get server u ps).
Proof.
  intros w. unfold session_get.
  destruct (_client_session (self w)) as [[[|]]|]; simpl;
    (split; [reflexivity|]).
  - exists 0. split; [lia|]. simpl. now rewrite app_nil_r.
  - exists 1. split; [lia|]. reflexivity.
  - exists 0. split; [lia|]. simpl. now rewrite app_nil_r.
Qed.

Lemma sends_page_loop server {A} (consume : A -> RawEod.t -> M A) u ps :
  (forall a d, quiet (consume a d)) ->
  forall n acc, sends (mkRequest u ps) n (page_loop server consume u ps n acc).
Proof.
  intros Hc. induction n as [|n IH]; intros acc.
  - apply quiet_sends, quiet_ret.
  - change (S n) with (1 + n). simpl page_loop.
    apply sends_bind; [apply sends_session_get|intros resp].
    apply quiet_then_sends; [apply quiet_write_log|intros _].
    apply quiet_then_sends; [apply quiet_handle_if_error|intros _].
    apply quiet_then_sends; [apply quiet_yield_each, Hc|intros [acc'|e]].
    + destruct (_ =? _)%Z; [apply quiet_sends, quiet_ret|apply IH].
    + apply quiet_sends, quiet_ret.
Qed.

(** ** Entering and leaving the session *)

Lemma async_with_session_none {A} (body : M A) w :
  _client_session (self w) = None ->
  async_with_session body w = (Raised (RuntimeError Msg_not_initialized), w).
Proof.
  intros H. unfold async_with_session, _session, get_self, bind.
  cbv beta iota. rewrite H. reflexivity.
Qed.

Lemma async_with_session_some {A} (body : M A) w s r w' :
  _client_session (self w) = Some s ->
  body w = (r, w') ->
  self w' = self w ->
  async_with_session body w = (r, closed_world w').
Proof.
  intros H E S. unfold async_with_session, _session, get_self, bind.
  cbv beta iota. rewrite H. unfold ret. cbv beta iota. rewrite E.
  unfold session_close, get_self, bind. cbv beta iota.
  rewrite S, H. unfold set_client_session, closed_world, closed_client.
  rewrite S. reflexivity.
Qed.

(** The generator of the ranged query, driven to its end: without a
    session nothing runs; with one, the session is closed unless the
    consumer abandoned the iteration. *)
Lemma helper_none server {A} (consume : A -> RawEod.t -> M A)
    symbols date_range exchange_filter max_requests acc w :
  _client_session (self w) = None ->
  _get_eod_range_helper server symbols date_range exchange_filter
    max_requests consume acc w
  = (Raised (RuntimeError Msg_not_initialized), w).
Proof.
  intros H. unfold _get_eod_range_helper, async_for,
    async_with_session_yielding, _session, get_self, bind.
  cbv beta iota. rewrite H. reflexivity.
Qed.

Lemma helper_some server {A} (consume : A -> RawEod.t -> M A)
    symbols date_range exchange_filter max_requests acc w s r w' :
  _client_session (self w) = Some s ->
  page_loop server consume (base_url (self w))
    (range_params (self w) symbols date_range exchange_filter)
    (Z.to_nat max_requests) acc w = (r, w') ->
  self w' = self w ->
  _get_eod_range_helper server symbols date_range exchange_filter
    max_requests consume acc w
  = match r with
    | Returned (Exhausted acc') => (Returned acc', closed_world w')
    | Returned (Abandoned e) => (Raised e, w')
    | Raised e => (Raised e, closed_world w')
    end.
Proof.
  intros H E S. unfold _get_eod_range_helper, async_for,
    async_with_session_yielding, _session, get_self, bind.
  cbv beta iota. rewrite H. unfold ret. cbv beta iota. rewrite E.
  unfold session_close, get_self, bind. cbv beta iota.
  rewrite S, H. unfold set_client_session, closed_world, closed_client.
  rewrite S. destruct r as [[a|e]|e]; reflexivity.
Qed.

Lemma closed_world_closed w : session_closed w -> closed_world w = w.
Proof.
  unfold session_closed, closed_world, closed_client.
  destruct w as [[b p s k] t l]; simpl. now intros ->.
Qed.

Lemma session_get_closed server u ps w :
  session_closed w ->
  session_get server u ps w = (Raised (RuntimeError Msg_session_closed), w).
Proof.
  unfold session_closed, session_get. now intros ->.
Qed.

(** ** Rows *)

Lemma deserialize_eod_ok d w :
  row_ok d = true -> _deserialize_eod d w = (Returned (deserialized d), w).
Proof.
  unfold row_ok, _deserialize_eod, deserialized, eod_of.
  destruct (datetime.fromisoformat (RawEod.date d)); [reflexivity|discriminate].
Qed.

Lemma collect_eod_ok acc d w :
  row_ok d = true ->
  collect_eod acc d w = (Returned (acc ++ [deserialized d]), w).
Proof.
  intros H. unfold collect_eod, bind. now rewrite (deserialize_eod_ok d w H).
Qed.

Lemma yield_each_pure {A} (consume : A -> RawEod.t -> M A)
    (f : A -> RawEod.t -> A) (good : RawEod.t -> bool) (xs : list RawEod.t) :
  (forall acc x w, good x = true -> consume acc x w = (Returned (f acc x), w)) ->
  forallb good xs = true ->
  forall acc w,
    yield_each consume xs acc w
    = (Returned (Exhausted (fold_left f xs acc)), w).
Proof.
  intros Hc. induction xs as [|x xs IH]; simpl; intros Hg acc w.
  - reflexivity.
  - apply andb_prop in Hg. destruct Hg as [Hx Hxs].
    rewrite (Hc acc x w Hx). apply IH, Hxs.
Qed.

Lemma mapM_deserialize ds w :
  forallb row_ok ds = true ->
  mapM _deserialize_eod ds w = (Returned (map deserialized ds), w).
Proof.
  induction ds as [|d ds IH]; simpl; intros H.
  - reflexivity.
  - apply andb_prop in H. destruct H as [Hd Hds].
    unfold bind. rewrite (deserialize_eod_ok d w Hd), (IH Hds). reflexivity.
Qed.

Lemma fold_left_snoc {A B} (g : B -> A) (xs : list B) (acc : list A) :
  fold_left (fun a x => a ++ [g x]) xs acc = acc ++ map g xs.
Proof.
  revert acc. induction xs as [|x xs IH]; simpl; intros acc.
  - now rewrite app_nil_r.
  - rewrite IH, <- app_assoc. reflexivity.
Qed.

(** ** The pagination loop *)

Section Loop.

Variable server : nat -> Request -> ClientResponse.t.

Context {A : Type} (consume : A -> RawEod.t -> M A) (f : A -> RawEod.t -> A)
        (good : RawEod.t -> bool).
Hypothesis consume_pure :
  forall acc d w, good d = true -> consume acc d w = (Returned (f acc d), w).

Variables (u : string) (ps : list (string * string)).

Lemma session_get_open w :
  session_open w ->
  session_get server u ps w =
    (Returned (page server (mkRequest u ps) w 0),
     mkWorld (self w) (sent w ++ [mkRequest u ps]) (logged w)).
Proof.
  unfold session_open, session_get, page. intros ->.
  now rewrite Nat.add_0_r.
Qed.

Lemma page_loop_S n acc w :
  session_open w ->
  ClientResponse.status (page server (mkRequest u ps) w 0) = 200%Z ->
  forallb good (rows (page server (mkRequest u ps) w 0)) = true ->
  page_loop server consume u ps (S n) acc w =
    let p0 := page server (mkRequest u ps) w 0 in
    let acc' := fold_left f (rows p0) acc in
    let w' := after_requests (mkRequest u ps) 1 w in
    if (seen p0 =? reported_total p0)%Z
    then (Returned (Exhausted acc'), w')
    else page_loop server consume u ps n acc' w'.
Proof.
  intros Ho Hs Hg. simpl page_loop. unfold bind at 1.
  rewrite (session_get_open w Ho).
  unfold bind at 1. unfold log_debug, write_log. cbn [self sent logged].
  unfold bind at 1. rewrite (handle_if_error_ok _ _ _ Hs).
  unfold bind at 1.
  rewrite (yield_each_pure consume f good _ consume_pure Hg).
  cbv zeta. unfold seen, reported_total, after_requests. simpl repeat.
  destruct (_ =? _)%Z; reflexivity.
Qed.

Lemma page_shift w i :
  page server (mkRequest u ps) (after_requests (mkRequest u ps) 1 w) i
  = page server (mkRequest u ps) w (S i).
Proof.
  unfold page, after_requests; cbn [sent].
  rewrite length_app; simpl. f_equal. lia.
Qed.

Lemma after_requests_S req k w :
  after_requests req k (after_requests req 1 w) = after_requests req (S k) w.
Proof.
  unfold after_requests; cbn [self sent logged].
  rewrite <- !app_assoc. reflexivity.
Qed.

Lemma after_requests_0 req w : after_requests req 0 w = w.
Proof.
  unfold after_requests; simpl. rewrite !app_nil_r. now destruct w.
Qed.

Lemma rows_upto_S w k :
  rows_upto server (mkRequest u ps) w (S k)
  = rows (page server (mkRequest u ps) w 0)
    ++ rows_upto server (mkRequest u ps)
         (after_requests (mkRequest u ps) 1 w) k.
Proof.
  unfold rows_upto. simpl. f_equal.
  rewrite <- seq_shift, flat_map_concat_map, map_map,
    <- flat_map_concat_map.
  apply flat_map_ext. intros i. now rewrite page_shift.
Qed.

(** What the loop does on [m] successful pages when it has a budget of
    [n]: the first [m - 1] pages do not report completion, and either the
    budget ends there ([m = n]) or the last page reports completion. *)
Lemma page_loop_run m : forall n acc w,
  session_open w ->
  m <= n ->
  (forall i, i < m ->
     ClientResponse.status (page server (mkRequest u ps) w i) = 200%Z /\
     forallb good (rows (page server (mkRequest u ps) w i)) = true) ->
  (forall i, S i < m ->
     seen (page server (mkRequest u ps) w i)
     <> reported_total (page server (mkRequest u ps) w i)) ->
  (m = n \/
   exists j, m = S j /\
     seen (page server (mkRequest u ps) w j)
     = reported_total (page server (mkRequest u ps) w j)) ->
  page_loop server consume u ps n acc w =
    (Returned
       (Exhausted (fold_left f (rows_upto server (mkRequest u ps) w m) acc)),
     after_requests (mkRequest u ps) m w).
Proof.
  induction m as [|m IH]; intros n acc w Ho Hle Hok Hne Hend.
  - destruct Hend as [<-|[j [Hj _]]]; [|discriminate].
    simpl. now rewrite after_requests_0.
  - destruct n as [|n]; [lia|].
    destruct (Hok 0 ltac:(lia)) as [Hs Hg].
    rewrite (page_loop_S n acc w Ho Hs Hg). cbv zeta.
    rewrite rows_upto_S, fold_left_app.
    destruct (Z.eqb_spec (seen (page server (mkRequest u ps) w 0))
                (reported_total (page server (mkRequest u ps) w 0)))
      as [Heq|Hneq].
    + destruct m as [|m].
      * reflexivity.
      * exfalso. apply (Hne 0); [lia|exact Heq].
    + rewrite <- (after_requests_S (mkRequest u ps) m w). apply IH.
      * exact Ho.
      * lia.
      * intros i Hi. rewrite page_shift. apply Hok. lia.
      * intros i Hi. rewrite page_shift. apply Hne. lia.
      * destruct Hend as [Hmn|[j [Hj Hj']]].
        -- left. lia.
        -- right. destruct j as [|j].
           ++ exfalso. apply Hneq. exact Hj'.
           ++ exists j. split; [lia|]. now rewrite page_shift.
Qed.

(** The generator around the loop: it reads the session, runs the loop and
    closes the session. *)
Lemma helper_run symbols date_range exchange_filter max_requests m acc w :
  session_open w ->
  m <= Z.to_nat max_requests ->
  u = base_url (self w) ->
  ps = range_params (self w) symbols date_range exchange_filter ->
  (forall i, i < m ->
     ClientResponse.status (page server (mkRequest u ps) w i) = 200%Z /\
     forallb good (rows (page server (mkRequest u ps) w i)) = true) ->
  (forall i, S i < m ->
     seen (page server (mkRequest u ps) w i)
     <> reported_total (page server (mkRequest u ps) w i)) ->
  (m = Z.to_nat max_requests \/
   exists j, m = S j /\
     seen (page server (mkRequest u ps) w j)
     = reported_total (page server (mkRequest u ps) w j)) ->
  _get_eod_range_helper server symbols date_range exchange_filter
    max_requests consume acc w =
    (Returned (fold_left f (rows_upto server (mkRequest u ps) w m) acc),
     closed_world (after_requests (mkRequest u ps) m w)).
Proof.
  intros Ho Hle Hu Hps Hok Hne Hend.
  rewrite (helper_some server consume symbols date_range exchange_filter
             max_requests acc w (mkClientSession false)
             (Returned
                (Exhausted
                   (fold_left f (rows_upto server (mkRequest u ps) w m) acc)))
             (after_requests (mkRequest u ps) m w)).
  - reflexivity.
  - exact Ho.
  - rewrite <- Hu, <- Hps. apply page_loop_run; assumption.
  - reflexivity.
Qed.

End Loop.

Lemma issued_app w w' l : sent w' = sent w ++ l -> issued w w' = l.
Proof.
  intros H. unfold issued. rewrite H, skipn_app, skipn_all, Nat.sub_diag.
  reflexivity.
Qed.

(** Whatever the server answers and whatever the state of the session, the
    generator sends its one request at most [max_requests] times. *)
Lemma helper_sends server {A} (consume : A -> RawEod.t -> M A)
    symbols date_range exchange_filter max_requests acc w :
  (forall a d, quiet (consume a d)) ->
  exists j,
    j <= Z.to_nat max_requests /\
    sent (snd (_get_eod_range_helper server symbols date_range exchange_filter
                 max_requests consume acc w))
    = sent w
      ++ repeat (range_request (self w) symbols date_range exchange_filter) j.
Proof.
  intros Hc.
  destruct (_client_session (self w)) as [s|] eqn:Hs.
  - pose proof (sends_page_loop server consume (base_url (self w))
                  (range_params (self w) symbols date_range exchange_filter)
                  Hc (Z.to_nat max_requests) acc w) as [Hself [j [Hj Hsent]]].
    destruct (page_loop server consume (base_url (self w))
                (range_params (self w) symbols date_range exchange_filter)
                (Z.to_nat max_requests) acc w) as [r w'] eqn:E.
    cbn [snd] in Hself, Hsent.
    rewrite (helper_some server consume symbols date_range exchange_filter
               max_requests acc w s r w' Hs E Hself).
    exists j. split; [exact Hj|].
    destruct r as [[a|e]|e]; exact Hsent.
  - rewrite helper_none by exact Hs.
    exists 0. split; [lia|]. simpl. now rewrite app_nil_r.
Qed.

(** ** Dates: printing, then reading *)

Module datetime_facts.
Import datetime.
Local Open Scope Z_scope.

Lemma digit_value_digit n : digit_value (digit n) = Some (n mod 10).
Proof.
  unfold digit_value, digit.
  pose proof (Z.mod_pos_bound n 10 ltac:(lia)) as Hm.
  rewrite N_ascii_embedding by lia.
  rewrite Z2N.id by lia.
  destruct (Z.leb_spec 48 (48 + n mod 10)); [|lia].
  destruct (Z.leb_spec (48 + n mod 10) 57); [|lia].
  cbn [andb]. f_equal. lia.
Qed.

Lemma is_digit_digit n : is_digit (digit n) = true.
Proof. unfold is_digit. now rewrite digit_value_digit. Qed.

Lemma digit_differs n c : is_digit c = false -> Ascii.eqb (digit n) c = false.
Proof.
  intros H. destruct (Ascii.eqb_spec (digit n) c) as [E|]; [|reflexivity].
  rewrite <- E, is_digit_digit in H. discriminate.
Qed.

Lemma parse_pad2 n rest :
  0 <= n < 100 -> parse_digits 2 0 (pad2 n ++ rest) = Some (n, rest).
Proof.
  intros Hn. unfold pad2. cbn [parse_digits String.append].
  rewrite !digit_value_digit.
  do 2 f_equal. Z.to_euclidean_division_equations. lia.
Qed.

Lemma parse_pad3 n rest :
  0 <= n < 1000 -> parse_digits 3 0 (pad3 n ++ rest) = Some (n, rest).
Proof.
  intros Hn. unfold pad3, pad2. cbn [parse_digits String.append].
  rewrite !digit_value_digit.
  do 2 f_equal. Z.to_euclidean_division_equations. lia.
Qed.

Lemma parse_pad4 n rest :
  0 <= n < 10000 -> parse_digits 4 0 (pad4 n ++ rest) = Some (n, rest).
Proof.
  intros Hn. unfold pad4, pad3, pad2. cbn [parse_digits String.append].
  rewrite !digit_value_digit.
  do 2 f_equal. Z.to_euclidean_division_equations. lia.
Qed.

Lemma days_in_month_le y m : days_in_month y m <= 31.
Proof.
  unfold days_in_month.
  destruct (m =? 2); [destruct (is_leap y); lia|].
  destruct (_ || _); lia.
Qed.

Lemma date_ok_bounds d :
  date_ok d = true ->
  1 <= year d < 10000 /\ 0 <= month d < 100 /\ 0 <= day d < 100.
Proof.
  unfold date_ok. intros H.
  repeat (apply andb_prop in H; destruct H as [H ?]).
  pose proof (days_in_month_le (year d) (month d)).
  lia.
Qed.

(** Reading a calendar date spelled on ten characters: the date at
    midnight when it exists, nothing when it does not. *)
Lemma fromisoformat_spelled y m d :
  0 <= y < 10000 -> 0 <= m < 100 -> 0 <= d < 100 ->
  fromisoformat (spelled y m d)
  = if date_ok (mkdate y m d)
    then Some (mkdatetime (mkdate y m d) 0 0 0 0 None)
    else None.
Proof.
  intros Hy Hm Hd.
  assert (Hsep : find_isoformat_datetime_separator (spelled y m d)
                 = Some 10%nat).
  { unfold find_isoformat_datetime_separator, spelled, pad4, pad3, pad2.
    cbn [String.append String.length Nat.eqb byte_at drop tail head].
    cbn [Ascii.eqb Bool.eqb].
    now rewrite (digit_differs (m / 10) "W" eq_refl). }
  assert (Hdate : parse_isoformat_date (spelled y m d) 10 = Some (y, m, d)).
  { unfold parse_isoformat_date, spelled.
    rewrite parse_pad4 by exact Hy.
    cbn [String.append head tail]. rewrite Ascii.eqb_refl.
    replace (head (pad2 m ++ String "-" (pad2 d))) with (digit (m / 10))
      by reflexivity.
    rewrite (digit_differs (m / 10) "W" eq_refl).
    rewrite parse_pad2 by exact Hm. cbn [expect]. rewrite Ascii.eqb_refl.
    replace (pad2 d) with (pad2 d ++ "")%string by reflexivity.
    now rewrite parse_pad2 by exact Hd. }
  unfold fromisoformat. rewrite Hsep, Hdate.
  unfold spelled, pad4, pad3, pad2.
  cbn [String.append String.length Nat.ltb Nat.leb].
  cbn [tzinfo_from_isoformat_results time_ok Z.ltb Z.compare andb].
  now rewrite andb_true_r.
Qed.

(** From the year 1000 on, [%Y] fills its four digits. *)
Lemma year_text_pad4 y : 1000 <= y -> year_text y = pad4 y.
Proof.
  intros H. unfold year_text.
  destruct (Z.ltb_spec y 10); [lia|].
  destruct (Z.ltb_spec y 100); [lia|].
  destruct (Z.ltb_spec y 1000); [lia|reflexivity].
Qed.

Lemma strftime_spelled d :
  1000 <= year d -> strftime_Ymd d = spelled (year d) (month d) (day d).
Proof.
  intros H. unfold strftime_Ymd, spelled. now rewrite year_text_pad4.
Qed.

(** From the year 1000 on, reading back what [strftime] printed gives the
    date, at midnight. *)
Lemma fromisoformat_strftime d :
  date_ok d = true ->
  1000 <= year d ->
  fromisoformat (strftime_Ymd d) = Some (mkdatetime d 0 0 0 0 None).
Proof.
  intros Hok Hy. destruct (date_ok_bounds d Hok) as [By [Bm Bd]].
  rewrite strftime_spelled by exact Hy.
  rewrite fromisoformat_spelled by lia.
  destruct d as [y m dd]; cbn [year month day] in *.
  now rewrite Hok.
Qed.

(** Whatever the width of the year, what [strftime] printed determines
    the date. *)
Lemma count_digits_digit n s :
  count_digits (String (digit n) s) = S (count_digits s).
Proof. cbn [count_digits]. now rewrite is_digit_digit. Qed.

Lemma count_digits_dash s : count_digits (String "-" s) = 0%nat.
Proof. reflexivity. Qed.

Lemma count_digits_pad2 n r :
  count_digits (pad2 n ++ String "-" r) = 2%nat.
Proof.
  unfold pad2. cbn [String.append].
  now rewrite !count_digits_digit, count_digits_dash.
Qed.

Lemma count_digits_pad3 n r :
  count_digits (pad3 n ++ String "-" r) = 3%nat.
Proof.
  unfold pad3, pad2. cbn [String.append].
  now rewrite !count_digits_digit, count_digits_dash.
Qed.

Lemma count_digits_pad4 n r :
  count_digits (pad4 n ++ String "-" r) = 4%nat.
Proof.
  unfold pad4, pad3, pad2. cbn [String.append].
  now rewrite !count_digits_digit, count_digits_dash.
Qed.

Lemma read_rest m d :
  0 <= m < 100 -> 0 <= d < 100 ->
  forall y,
    match expect "-" (String "-" (pad2 m ++ String "-" (pad2 d))) with
    | None => None
    | Some s2 =>
        match parse_digits 2 0 s2 with
        | None => None
        | Some (m', s3) =>
            match expect "-" s3 with
            | None => None
            | Some s4 =>
                match parse_digits 2 0 s4 with
                | Some (d', _) => Some (mkdate y m' d')
                | None => None
                end
            end
        end
    end = Some (mkdate y m d).
Proof.
  intros Bm Bd y. cbn [expect]. rewrite Ascii.eqb_refl.
  rewrite parse_pad2 by exact Bm. cbn [expect]. rewrite Ascii.eqb_refl.
  replace (pad2 d) with (pad2 d ++ "")%string by reflexivity.
  now rewrite parse_pad2 by exact Bd.
Qed.

Lemma read_Ymd_strftime d :
  date_ok d = true -> read_Ymd (strftime_Ymd d) = Some d.
Proof.
  intros Hok.
  destruct (date_ok_bounds d Hok) as [By [Bm Bd]].
  destruct d as [y m dd]; cbn [year month day] in *.
  unfold read_Ymd, strftime_Ymd, year_text. cbn [year month day].
  destruct (Z.ltb_spec y 10); [|destruct (Z.ltb_spec y 100);
                                 [|destruct (Z.ltb_spec y 1000)]].
  - cbn [String.append].
    rewrite !count_digits_digit, count_digits_dash.
    cbn [parse_digits]. rewrite digit_value_digit.
    replace (10 * 0 + y mod 10) with y
      by (Z.to_euclidean_division_equations; lia).
    now apply read_rest.
  - cbn [String.append]. rewrite count_digits_pad2, parse_pad2 by lia.
    now apply read_rest.
  - cbn [String.append]. rewrite count_digits_pad3, parse_pad3 by lia.
    now apply read_rest.
  - cbn [String.append]. rewrite count_digits_pad4, parse_pad4 by lia.
    now apply read_rest.
Qed.

End datetime_facts.

(** * The claims *)

(** ** The response classifier *)

(** C1 (as amended).  On a non-200 response whose body carries an error
    envelope, the classifier raises the class that the two-level table
    assigns to the status and the envelope's sub-code, stated here for
    envelopes whose [message] and [code] hold the same string: the listed
    sub-codes give their own class (under 404 these are
    [invalid_api_function] and [404_not_found]), any other sub-code the
    default of the status, and a status outside the table gives
    [UnhandledResponseError] whatever the body. *)
Theorem C1_two_level_dispatch :
  forall (resp : ClientResponse.t) (body : EodResponse.t) (w : World),
    ClientResponse.status resp <> 200%Z ->
    (forall env,
        EodResponse.error body = Some env ->
        ErrorResponse.message env = ErrorResponse.code env ->
        _handle_if_error resp body w =
          (Raised (ResponseException
                     (table_kind (ClientResponse.status resp)
                                 (ErrorResponse.code env)) resp),
           warned w))
    /\ (known_status (ClientResponse.status resp) = false ->
        _handle_if_error resp body w =
          (Raised (ResponseException UnhandledResponseError resp),
           warned w)).
Proof.
  intros resp body w H200. split.
  - intros env Henv Hsame. rewrite <- Hsame.
    destruct (known_status (ClientResponse.status resp)) eqn:K.
    + apply handle_if_error_envelope; assumption.
    + rewrite (handle_if_error_unknown _ _ _ H200 K).
      revert K. unfold known_status, table_kind.
      split_status; try discriminate. reflexivity.
  - intros K. apply handle_if_error_unknown; assumption.
Qed.

Lemma C1_two_level_dispatch_witness :
  _handle_if_error Sample.invalid_key (ClientResponse.json Sample.invalid_key)
    (fresh_world (Sample.client FREE))
  = (Raised (ResponseException InvalidAccessKeyError Sample.invalid_key),
     warned (fresh_world (Sample.client FREE))).
Proof.
  apply (proj1 (C1_two_level_dispatch
                  Sample.invalid_key (ClientResponse.json Sample.invalid_key)
                  (fresh_world (Sample.client FREE)) ltac:(discriminate))
               (Sample.envelope "invalid_access_key") eq_refl eq_refl).
Defined.

(** The sub-code [resource_not_found] is not a key of the table: under 404
    it falls to the default, [NotFoundError], and not to
    [ResourceNotFoundError]. *)
Lemma C1_resource_not_found_counterexample :
  fst (_handle_if_error Sample.resource_missing
         (ClientResponse.json Sample.resource_missing)
         (fresh_world (Sample.client FREE)))
  = Raised (ResponseException NotFoundError Sample.resource_missing)
  /\ fst (_handle_if_error Sample.resource_missing
            (ClientResponse.json Sample.resource_missing)
            (fresh_world (Sample.client FREE)))
     <> Raised (ResponseException ResourceNotFoundError
                  Sample.resource_missing).
Proof.
  split; [reflexivity|discriminate].
Qed.

(** The key that is looked up is the envelope's [message]: an envelope with
    the provider's code and a sentence as its message gets the default of
    its status. *)
Example message_is_the_lookup_key :
  fst (_handle_if_error Sample.invalid_key_sentence
         (ClientResponse.json Sample.invalid_key_sentence)
         (fresh_world (Sample.client FREE)))
  = Raised (ResponseException UnauthorizedError Sample.invalid_key_sentence).
Proof. reflexivity. Qed.

(** C2 (as amended).  On a non-200 response whose body has no error
    envelope, the classifier raises the protocol-violation [RuntimeError]
    when the status is one of 401, 403, 404, 429, 500, and
    [UnhandledResponseError] when it is any other status. *)
Theorem C2_missing_envelope :
  forall (resp : ClientResponse.t) (body : EodResponse.t) (w : World),
    ClientResponse.status resp <> 200%Z ->
    EodResponse.error body = None ->
    _handle_if_error resp body w =
      (Raised (if known_status (ClientResponse.status resp)
               then RuntimeError (Msg_missing_error body)
               else ResponseException UnhandledResponseError resp),
       warned w).
Proof.
  intros resp body w H200 E.
  destruct (known_status (ClientResponse.status resp)) eqn:K.
  - apply handle_if_error_missing; assumption.
  - apply handle_if_error_unknown; assumption.
Qed.

Lemma C2_missing_envelope_witness :
  _handle_if_error Sample.unexplained (ClientResponse.json Sample.unexplained)
    (fresh_world (Sample.client FREE))
  = (Raised (RuntimeError
               (Msg_missing_error (ClientResponse.json Sample.unexplained))),
     warned (fresh_world (Sample.client FREE))).
Proof.
  apply (C2_missing_envelope Sample.unexplained
           (ClientResponse.json Sample.unexplained)
           (fresh_world (Sample.client FREE)) ltac:(discriminate) eq_refl).
Defined.

(** Status 418 without an envelope: a typed API error is raised, not the
    protocol-violation fault. *)
Lemma C2_unrecognised_status_counterexample :
  fst (_handle_if_error Sample.teapot (ClientResponse.json Sample.teapot)
         (fresh_world (Sample.client FREE)))
  = Raised (ResponseException UnhandledResponseError Sample.teapot)
  /\ fst (_handle_if_error Sample.teapot (ClientResponse.json Sample.teapot)
            (fresh_world (Sample.client FREE)))
     <> Raised (RuntimeError
                  (Msg_missing_error (ClientResponse.json Sample.teapot))).
Proof.
  split; [reflexivity|discriminate].
Qed.

(** ** The ranged query *)

(** C3.  Driven to its end, the generator of the ranged query stops on the
    first page whose own [limit * offset + count] equals its [total]: when
    the pages [0 .. k] are successful, none before page [k] reports
    completion, page [k] does, and the budget allows [k + 1] requests, it
    sends exactly [k + 1] requests and yields the rows of those pages.  With
    [k = 0] this is the case of a first page reporting
    [{limit: 1000, offset: 0, count: 1, total: 1}]: one request. *)
Theorem C3_stops_when_seen_equals_total :
  forall server symbols date_range exchange_filter (max_requests : Z)
         (w : World) (k : nat),
    let req := range_request (self w) symbols date_range exchange_filter in
    session_open w ->
    (Z.of_nat k < max_requests)%Z ->
    (forall i, i <= k ->
       ClientResponse.status (page server req w i) = 200%Z) ->
    (forall i, i < k ->
       seen (page server req w i) <> reported_total (page server req w i)) ->
    seen (page server req w k) = reported_total (page server req w k) ->
    _get_eod_range_helper server symbols date_range exchange_filter
      max_requests collect_raw [] w
    = (Returned (rows_upto server req w (S k)),
       closed_world (after_requests req (S k) w))
    /\ issued w (after_requests req (S k) w) = repeat req (S k).
Proof.
  intros server symbols date_range exchange_filter max_requests w k req
         Ho Hk Hok Hne Hstop.
  split; [|apply issued_app; reflexivity].
  rewrite (helper_run server collect_raw (fun a d => a ++ [d])
             (fun _ => true) (fun a d w' _ => eq_refl)
             (base_url (self w))
             (range_params (self w) symbols date_range exchange_filter)
             symbols date_range exchange_filter max_requests (S k) [] w).
  - rewrite (fold_left_snoc (fun d => d)), map_id. reflexivity.
  - exact Ho.
  - lia.
  - reflexivity.
  - reflexivity.
  - intros i Hi. split; [apply Hok; lia|].
    apply forallb_forall. reflexivity.
  - intros i Hi. apply Hne. lia.
  - right. exists k. split; [reflexivity|exact Hstop].
Qed.

Lemma C3_stops_when_seen_equals_total_witness :
  let server := Sample.always (Sample.page_of 1000 0 1 1 [Sample.amzn]) in
  let w := Sample.entered FREE in
  let req :=
    range_request (self w) ["AMZN"] (Sample.july_17, Sample.july_17) None in
  _get_eod_range_helper server ["AMZN"] (Sample.july_17, Sample.july_17)
    None 10 collect_raw [] w
  = (Returned [Sample.amzn], closed_world (after_requests req 1 w))
  /\ issued w (after_requests req 1 w) = [req].
Proof.
  apply (C3_stops_when_seen_equals_total
           (Sample.always (Sample.page_of 1000 0 1 1 [Sample.amzn]))
           ["AMZN"] (Sample.july_17, Sample.july_17) None 10
           (Sample.entered FREE) 0).
  - reflexivity.
  - reflexivity.
  - intros i _. reflexivity.
  - intros i Hi. inversion Hi.
  - reflexivity.
Defined.

(** C4.  With a budget of [N >= 0] requests and [N] successful pages none
    of which reports completion, the ranged query sends exactly [N]
    requests and returns, without raising, the records of the rows of those
    [N] pages; and whatever the server answers and whatever the state of
    the client, it never sends more than [N] requests. *)
Theorem C4_request_budget :
  forall server symbols date_range exchange_filter (N : Z) (w : World),
    let req := range_request (self w) symbols date_range exchange_filter in
    (0 <= N)%Z ->
    session_open w ->
    (forall i, i < Z.to_nat N ->
       ClientResponse.status (page server req w i) = 200%Z /\
       seen (page server req w i) <> reported_total (page server req w i) /\
       forallb row_ok (rows (page server req w i)) = true) ->
    (get_eod_range server symbols date_range exchange_filter N w
     = (Returned (map deserialized (rows_upto server req w (Z.to_nat N))),
        closed_world (after_requests req (Z.to_nat N) w))
     /\ issued w (after_requests req (Z.to_nat N) w)
        = repeat req (Z.to_nat N))
    /\ (forall server' w',
          exists j,
            (Z.of_nat j <= N)%Z /\
            issued w' (snd (get_eod_range server' symbols date_range
                              exchange_filter N w'))
            = repeat (range_request (self w') symbols date_range
                        exchange_filter) j).
Proof.
  intros server symbols date_range exchange_filter N w req HN Ho Hpages.
  split; [split; [|apply issued_app; reflexivity]|].
  - unfold get_eod_range.
    rewrite (helper_run server collect_eod
               (fun a d => a ++ [deserialized d]) row_ok collect_eod_ok
               (base_url (self w))
               (range_params (self w) symbols date_range exchange_filter)
               symbols date_range exchange_filter N (Z.to_nat N) [] w).
    + rewrite (fold_left_snoc deserialized). reflexivity.
    + exact Ho.
    + lia.
    + reflexivity.
    + reflexivity.
    + intros i Hi. destruct (Hpages i Hi) as [Hs [_ Hg]]. split; assumption.
    + intros i Hi. destruct (Hpages i ltac:(lia)) as [_ [Hne _]]. exact Hne.
    + left. reflexivity.
  - intros server' w'. unfold get_eod_range.
    destruct (helper_sends server' collect_eod symbols date_range
                exchange_filter N [] w' quiet_collect_eod) as [j [Hj Hs]].
    exists j. split; [lia|]. apply issued_app. exact Hs.
Qed.

Lemma C4_request_budget_witness :
  let server := Sample.always (Sample.page_of 1000 0 1 5 [Sample.amzn]) in
  let w := Sample.entered FREE in
  let req :=
    range_request (self w) ["AMZN"] (Sample.july_17, Sample.july_17) None in
  get_eod_range server ["AMZN"] (Sample.july_17, Sample.july_17) None 3 w
  = (Returned (map deserialized [Sample.amzn; Sample.amzn; Sample.amzn]),
     closed_world (after_requests req 3 w))
  /\ issued w (after_requests req 3 w) = [req; req; req].
Proof.
  apply (C4_request_budget
           (Sample.always (Sample.page_of 1000 0 1 5 [Sample.amzn]))
           ["AMZN"] (Sample.july_17, Sample.july_17) None 3
           (Sample.entered FREE)).
  - lia.
  - reflexivity.
  - intros i _. repeat split. discriminate.
Defined.

(** ** The single-date query *)

Lemma string_length_append (s t : string) :
  String.length (s ++ t) = String.length s + String.length t.
Proof.
  induction s as [|c s IH]; simpl; [reflexivity|now rewrite IH].
Qed.

(** The date-scoped endpoint is never the collection endpoint. *)
Lemma date_url_differs (me : _MarketstackClient) (d : datetime.date) :
  base_url me <> (base_url me ++ "/" ++ _format_date d)%string.
Proof.
  intros H. apply (f_equal String.length) in H.
  rewrite string_length_append in H. simpl in H. lia.
Qed.

Lemma get_eod_free server symbols d exchange_filter w :
  plan (self w) = FREE ->
  get_eod server symbols d exchange_filter w
  = get_eod_range server symbols (d, d) exchange_filter 10 w.
Proof.
  intros H. unfold get_eod, get_self. unfold bind at 1. cbv beta iota.
  rewrite H. reflexivity.
Qed.

(** C5.  On the FREE plan the single-date query is the ranged query on the
    range [(d, d)] with the same symbols and filter: same outcome, same
    final state; every request it sends goes to the collection endpoint,
    none to a date-scoped one. *)
Theorem C5_free_plan_uses_range :
  forall server symbols (d : datetime.date) exchange_filter (w : World),
    plan (self w) = FREE ->
    get_eod server symbols d exchange_filter w
    = get_eod_range server symbols (d, d) exchange_filter 10 w
    /\ forall r,
         In r (issued w (snd (get_eod server symbols d exchange_filter w))) ->
         url r = base_url (self w) /\
         forall d', url r <> url (date_request (self w) symbols d'
                                    exchange_filter).
Proof.
  intros server symbols d exchange_filter w Hfree.
  split; [apply get_eod_free, Hfree|].
  intros r Hr. rewrite (get_eod_free _ _ _ _ _ Hfree) in Hr.
  unfold get_eod_range in Hr.
  destruct (helper_sends server collect_eod symbols (d, d) exchange_filter
              10 [] w quiet_collect_eod) as [j [_ Hs]].
  rewrite (issued_app _ _ _ Hs) in Hr. apply repeat_spec in Hr. subst r.
  split; [reflexivity|].
  intros d'. apply date_url_differs.
Qed.

Lemma C5_free_plan_uses_range_witness :
  let server := Sample.always (Sample.page_of 1000 0 1 1 [Sample.amzn]) in
  get_eod server ["AMZN"] Sample.july_17 None (Sample.entered FREE)
  = get_eod_range server ["AMZN"] (Sample.july_17, Sample.july_17) None 10
      (Sample.entered FREE).
Proof.
  apply (proj1 (C5_free_plan_uses_range
                  (Sample.always (Sample.page_of 1000 0 1 1 [Sample.amzn]))
                  ["AMZN"] Sample.july_17 None (Sample.entered FREE)
                  eq_refl)).
Defined.

Lemma get_eod_direct server symbols d exchange_filter w :
  session_open w ->
  (plan_value BASIC <= plan_value (plan (self w)))%Z ->
  let req := date_request (self w) symbols d exchange_filter in
  ClientResponse.status (page server req w 0) = 200%Z ->
  forallb row_ok (rows (page server req w 0)) = true ->
  get_eod server symbols d exchange_filter w
  = (Returned (map deserialized (rows (page server req w 0))),
     closed_world
       (after_date_query req (List.length (rows (page server req w 0))) w)).
Proof.
  intros Ho Hplan req Hs Hg. unfold get_eod, get_self.
  unfold bind at 1. cbv beta iota.
  destruct (Z.ltb_spec (plan_value (plan (self w))) (plan_value BASIC));
    [lia|].
  apply (async_with_session_some _ w (mkClientSession false)).
  - exact Ho.
  - unfold bind at 1. rewrite (session_get_open server _ _ w Ho).
    unfold bind at 1. unfold log_debug, write_log. cbn [self sent logged].
    unfold bind at 1. rewrite (handle_if_error_ok _ _ _ Hs).
    unfold bind at 1. unfold after_date_query.
    unfold req, date_request, rows in *.
    destruct (List.length _ =? 1);
      cbn [negb]; unfold log_error, write_log, ret; cbv beta iota;
      rewrite (mapM_deserialize _ _ Hg); cbn [self sent logged];
      rewrite <- ?app_assoc, ?app_nil_r; reflexivity.
  - reflexivity.
Qed.

(** At plan BASIC or above, a successful answer to the single-date query
    never fails the call on account of its number of rows: every row that
    came back is returned, deserialized, and the ERROR line is written,
    with the actual length, exactly when the number of rows differs from
    the literal 1, however many symbols were requested. *)
Lemma get_eod_direct_log :
  forall server symbols (d : datetime.date) exchange_filter (w : World),
    let req := date_request (self w) symbols d exchange_filter in
    let ds := rows (page server req w 0) in
    session_open w ->
    (plan_value BASIC <= plan_value (plan (self w)))%Z ->
    ClientResponse.status (page server req w 0) = 200%Z ->
    forallb row_ok ds = true ->
    exists w',
      get_eod server symbols d exchange_filter w
      = (Returned (map deserialized ds), w')
      /\ logged w'
         = logged w
           ++ [mkLog DEBUG "Finished Query." None]
           ++ (if List.length ds =? 1 then []
               else [mkLog ERROR "Length of the response data is not 1"
                           (Some (List.length ds))])
      /\ issued w w' = [req].
Proof.
  intros server symbols d exchange_filter w req ds Ho Hplan Hs Hg.
  eexists. split; [apply get_eod_direct; assumption|].
  fold req. fold ds. split.
  - reflexivity.
  - apply issued_app. reflexivity.
Qed.

(** C9.  The number of rows is compared with the literal 1, not with the
    number of requested symbols.  At plan BASIC, with the two symbols AMZN
    and MSFT requested: when the answer holds two rows, one for each
    symbol, the call returns both records and writes the ERROR line
    [Length of the response data is not 1], with the length 2, for an
    answer that has nothing wrong; when the answer holds the row of AMZN
    alone, one row short, the call returns that record and writes nothing
    but the DEBUG line of the query, so the anomaly goes unreported.  In
    neither case does the call fail. *)
Theorem C9_row_count_is_compared_with_one :
  let both :=
    Sample.always (Sample.page_of 1000 0 2 2 [Sample.amzn; Sample.msft]) in
  let short := Sample.always (Sample.page_of 1000 0 1 1 [Sample.amzn]) in
  let w := Sample.entered BASIC in
  (fst (get_eod both ["AMZN"; "MSFT"] Sample.july_17 None w)
   = Returned [eod_of Sample.amzn Sample.july_17;
               eod_of Sample.msft Sample.july_17]
   /\ logged (snd (get_eod both ["AMZN"; "MSFT"] Sample.july_17 None w))
      = [ mkLog DEBUG "Finished Query." None;
          mkLog ERROR "Length of the response data is not 1" (Some 2) ])
  /\ (fst (get_eod short ["AMZN"; "MSFT"] Sample.july_17 None w)
      = Returned [eod_of Sample.amzn Sample.july_17]
      /\ logged (snd (get_eod short ["AMZN"; "MSFT"] Sample.july_17 None w))
         = [mkLog DEBUG "Finished Query." None]).
Proof.
  repeat split.
Qed.

(** ** The scope of the session *)

Lemma page_loop_closed server {A} (consume : A -> RawEod.t -> M A)
    u ps n acc w :
  session_closed w ->
  page_loop server consume u ps (S n) acc w
  = (Raised (RuntimeError Msg_session_closed), w).
Proof.
  intros Hc. simpl page_loop. unfold bind at 1.
  now rewrite (session_get_closed server u ps w Hc).
Qed.

Lemma helper_closed server {A} (consume : A -> RawEod.t -> M A)
    symbols date_range exchange_filter (N : Z) acc w :
  session_closed w ->
  (1 <= N)%Z ->
  _get_eod_range_helper server symbols date_range exchange_filter N
    consume acc w
  = (Raised (RuntimeError Msg_session_closed), w).
Proof.
  intros Hc HN.
  rewrite (helper_some server consume symbols date_range exchange_filter
             N acc w (mkClientSession true)
             (Raised (RuntimeError Msg_session_closed)) w Hc).
  - now rewrite closed_world_closed.
  - destruct (Z.to_nat N) as [|n] eqn:E; [lia|].
    now apply page_loop_closed.
  - reflexivity.
Qed.

Lemma get_eod_closed server symbols d exchange_filter w :
  session_closed w ->
  get_eod server symbols d exchange_filter w
  = (Raised (RuntimeError Msg_session_closed), w).
Proof.
  intros Hc. unfold get_eod, get_self. unfold bind at 1. cbv beta iota.
  destruct (_ <? _)%Z.
  - apply helper_closed; [exact Hc|lia].
  - rewrite (async_with_session_some _ w (mkClientSession true)
               (Raised (RuntimeError Msg_session_closed)) w Hc).
    + now rewrite closed_world_closed.
    + unfold bind at 1. now rewrite (session_get_closed server _ _ w Hc).
    + reflexivity.
Qed.

Lemma get_eod_uninitialized server symbols d exchange_filter w :
  _client_session (self w) = None ->
  get_eod server symbols d exchange_filter w
  = (Raised (RuntimeError Msg_not_initialized), w).
Proof.
  intros Hn. unfold get_eod, get_self. unfold bind at 1. cbv beta iota.
  destruct (_ <? _)%Z.
  - now apply helper_none.
  - now apply async_with_session_none.
Qed.

(** C6 (as amended).  Before the scope is entered, each query method fails
    at once with the not-initialized [RuntimeError], in an unchanged world:
    nothing is sent.  After the scope has been left the client still holds
    its session, now closed: a query that tries a request (the single-date
    query, the ranged query with a budget of at least one) sends nothing
    either, and fails with the closed-session [RuntimeError] of the
    transport, not with the not-initialized one. *)
Theorem C6_outside_the_scope :
  forall server symbols (d : datetime.date) date_range exchange_filter
         (N : Z) (w : World),
    (_client_session (self w) = None ->
       get_eod server symbols d exchange_filter w
       = (Raised (RuntimeError Msg_not_initialized), w)
       /\ get_eod_range server symbols date_range exchange_filter N w
          = (Raised (RuntimeError Msg_not_initialized), w))
    /\ (session_closed w ->
        (1 <= N)%Z ->
        get_eod server symbols d exchange_filter w
        = (Raised (RuntimeError Msg_session_closed), w)
        /\ get_eod_range server symbols date_range exchange_filter N w
           = (Raised (RuntimeError Msg_session_closed), w)).
Proof.
  intros server symbols d date_range exchange_filter N w. split.
  - intros Hn. split; [now apply get_eod_uninitialized|].
    now apply helper_none.
  - intros Hc HN. split; [now apply get_eod_closed|].
    now apply helper_closed.
Qed.

Lemma C6_outside_the_scope_witness :
  let server := Sample.always (Sample.page_of 1000 0 1 1 [Sample.amzn]) in
  (get_eod server ["AMZN"] Sample.july_17 None
     (fresh_world (Sample.client BASIC))
   = (Raised (RuntimeError Msg_not_initialized),
      fresh_world (Sample.client BASIC))
   /\ get_eod_range server ["AMZN"] (Sample.july_17, Sample.july_17) None 10
        (fresh_world (Sample.client BASIC))
      = (Raised (RuntimeError Msg_not_initialized),
         fresh_world (Sample.client BASIC)))
  /\ (get_eod server ["AMZN"] Sample.july_17 None (Sample.left BASIC)
      = (Raised (RuntimeError Msg_session_closed), Sample.left BASIC)
      /\ get_eod_range server ["AMZN"] (Sample.july_17, Sample.july_17) None
           10 (Sample.left BASIC)
         = (Raised (RuntimeError Msg_session_closed), Sample.left BASIC)).
Proof.
  split.
  - apply (proj1 (C6_outside_the_scope
                    (Sample.always (Sample.page_of 1000 0 1 1 [Sample.amzn]))
                    ["AMZN"] Sample.july_17 (Sample.july_17, Sample.july_17)
                    None 10 (fresh_world (Sample.client BASIC)))).
    reflexivity.
  - apply (proj2 (C6_outside_the_scope
                    (Sample.always (Sample.page_of 1000 0 1 1 [Sample.amzn]))
                    ["AMZN"] Sample.july_17 (Sample.july_17, Sample.july_17)
                    None 10 (Sample.left BASIC))).
    + reflexivity.
    + lia.
Defined.

(** After the scope has been left a query does not raise the
    not-initialized condition: it raises the transport's closed-session
    error, and the ranged query with an empty budget raises nothing. *)
Lemma C6_after_exit_counterexample :
  fst (get_eod (Sample.always (Sample.page_of 1000 0 1 1 [Sample.amzn]))
         ["AMZN"] Sample.july_17 None (Sample.left BASIC))
  <> Raised (RuntimeError Msg_not_initialized)
  /\ fst (get_eod_range
            (Sample.always (Sample.page_of 1000 0 1 1 [Sample.amzn]))
            ["AMZN"] (Sample.july_17, Sample.july_17) None 0
            (Sample.left BASIC))
     = Returned [].
Proof.
  split; [discriminate|reflexivity].
Qed.

(** Whatever the body of [async with self._session] does, the session it
    found is closed when the block is left. *)
Lemma async_with_session_closes {A} (body : M A) w :
  (forall w0, self (snd (body w0)) = self w0) ->
  _client_session (self w) <> None ->
  self (snd (async_with_session body w)) = closed_client (self w).
Proof.
  intros Hb Hs. destruct (_client_session (self w)) as [s|] eqn:E;
    [|contradiction].
  destruct (body w) as [r w'] eqn:Eb.
  assert (Hw : self w' = self w) by (rewrite <- (Hb w), Eb; reflexivity).
  rewrite (async_with_session_some body w s r w' E Eb Hw).
  simpl. now rewrite Hw.
Qed.

(** From plan BASIC on, whatever the single-date query does, it leaves the
    session it found closed. *)
Lemma get_eod_closes_session server symbols d exchange_filter w :
  session_open w ->
  (plan_value BASIC <= plan_value (plan (self w)))%Z ->
  session_closed (snd (get_eod server symbols d exchange_filter w)).
Proof.
  intros Ho Hplan. unfold session_closed.
  assert (Hs : _client_session (self w) <> None)
    by (unfold session_open in Ho; congruence).
  unfold get_eod, get_self. unfold bind at 1. cbv beta iota.
  destruct (Z.ltb_spec (plan_value (plan (self w))) (plan_value BASIC));
    [lia|].
  rewrite async_with_session_closes; [reflexivity| |exact Hs].
  intros w0.
  refine (proj1 (sends_bind _ 1 0 _ _ (sends_session_get server _ _) _ w0)).
  intros resp. apply quiet_sends.
  apply quiet_bind; [apply quiet_write_log|intros _].
  apply quiet_bind; [apply quiet_handle_if_error|intros _].
  apply quiet_bind.
  - destruct (negb _); [apply quiet_write_log|apply quiet_ret].
  - intros _. apply quiet_mapM, quiet_deserialize_eod.
Qed.

(** C7.  Inside one scope, at plan BASIC, a first single-date query
    succeeds and leaves the session closed; the same query issued again in
    the same scope finds the session closed, sends nothing and raises the
    transport's closed-session error. *)
Theorem C7_second_query_finds_session_closed :
  let server := Sample.always (Sample.page_of 1000 0 1 1 [Sample.amzn]) in
  let first := get_eod server ["AMZN"] Sample.july_17 None
                 (Sample.entered BASIC) in
  session_open (Sample.entered BASIC)
  /\ fst first = Returned [eod_of Sample.amzn Sample.july_17]
  /\ session_closed (snd first)
  /\ get_eod server ["AMZN"] Sample.july_17 None (snd first)
     = (Raised (RuntimeError Msg_session_closed), snd first).
Proof.
  repeat split.
Qed.

(** C8.  The HTTPS client built on the FREE plan warns once and is
    constructed, but the base URL it stores and sends its requests to is
    the one with the http scheme, not [HTTPS_BASE_URL]. *)
Theorem C8_https_client_uses_http_url :
  forall access_key : string,
    fst (HttpsMarketstackClient access_key FREE)
    = ["Using the free plan isn't likely to work over SSL."]
    /\ base_url (snd (HttpsMarketstackClient access_key FREE))
       = "http://api.marketstack.com/v1/eod"
    /\ base_url (snd (HttpsMarketstackClient access_key FREE))
       <> HTTPS_BASE_URL
    /\ base_url (snd (HttpsMarketstackClient access_key FREE))
       = base_url (snd (HttpMarketstackClient access_key FREE))
    /\ map url
         (sent (snd (get_eod_range
                       (Sample.always
                          (Sample.page_of 1000 0 1 1 [Sample.amzn]))
                       ["AMZN"] (Sample.july_17, Sample.july_17) None 10
                       (snd (__aenter__
                               (fresh_world
                                  (snd (HttpsMarketstackClient access_key
                                          FREE))))))))
       = ["http://api.marketstack.com/v1/eod"].
Proof.
  intros access_key. repeat split. discriminate.
Qed.

(** ** Deserialization *)

(** C10.  The round trip fails below the year 1000.  [_format_date]
    prints the year through [%Y], which does not fill it to four digits:
    1 January 999 is printed [999-01-01], a string [fromisoformat] does not
    read, so that deserializing a row with that date field raises
    [ValueError] instead of giving back the date.  From the year 1000 on
    the round trip holds: the row deserializes, without raising, to a
    record whose date is [d].  And whenever a row deserializes, whatever
    its date field, the other nine fields are copied unchanged. *)
Theorem C10_round_trip_fails_below_year_1000 :
  (datetime.date_ok (datetime.mkdate 999 1 1) = true
   /\ _format_date (datetime.mkdate 999 1 1) = "999-01-01"
   /\ forall (raw : RawEod.t) (w : World),
        _deserialize_eod
          (with_date raw (_format_date (datetime.mkdate 999 1 1))) w
        = (Raised (ValueError "999-01-01"), w))
  /\ (forall (d : datetime.date) (raw : RawEod.t) (w : World),
        datetime.date_ok d = true ->
        (1000 <= datetime.year d)%Z ->
        RawEod.date raw = _format_date d ->
        exists e,
          _deserialize_eod raw w = (Returned e, w)
          /\ Eod.date e = d
          /\ Eod.open e = RawEod.open raw
          /\ Eod.high e = RawEod.high raw
          /\ Eod.low e = RawEod.low raw
          /\ Eod.close e = RawEod.close raw
          /\ Eod.volume e = RawEod.volume raw
          /\ Eod.split_factor e = RawEod.split_factor raw
          /\ Eod.dividend e = RawEod.dividend raw
          /\ Eod.symbol e = RawEod.symbol raw
          /\ Eod.exchange e = RawEod.exchange raw)
  /\ (forall raw' e' w1 w2,
        _deserialize_eod raw' w1 = (Returned e', w2) ->
        Eod.open e' = RawEod.open raw'
        /\ Eod.high e' = RawEod.high raw'
        /\ Eod.low e' = RawEod.low raw'
        /\ Eod.close e' = RawEod.close raw'
        /\ Eod.volume e' = RawEod.volume raw'
        /\ Eod.split_factor e' = RawEod.split_factor raw'
        /\ Eod.dividend e' = RawEod.dividend raw'
        /\ Eod.symbol e' = RawEod.symbol raw'
        /\ Eod.exchange e' = RawEod.exchange raw').
Proof.
  split; [|split].
  - split; [reflexivity|]. split; [reflexivity|].
    intros raw w. reflexivity.
  - intros d raw w Hok Hy Hdate.
    exists (eod_of raw d). unfold _deserialize_eod.
    rewrite Hdate. unfold _format_date.
    rewrite (datetime_facts.fromisoformat_strftime d Hok Hy).
    repeat split.
  - intros raw' e' w1 w2. unfold _deserialize_eod.
    destruct (datetime.fromisoformat (RawEod.date raw')); intros H;
      inversion H; subst. repeat split.
Qed.

Lemma C10_round_trip_fails_below_year_1000_witness :
  exists e,
    _deserialize_eod Sample.amzn_printed (fresh_world (Sample.client FREE))
    = (Returned e, fresh_world (Sample.client FREE))
    /\ Eod.date e = Sample.july_17
    /\ Eod.open e = RawEod.open Sample.amzn
    /\ Eod.close e = RawEod.close Sample.amzn.
Proof.
  destruct (proj1 (proj2 C10_round_trip_fails_below_year_1000)
              Sample.july_17 Sample.amzn_printed
              (fresh_world (Sample.client FREE)) eq_refl
              ltac:(simpl; lia) eq_refl)
    as [e [He [Hd [Hopen [_ [_ [Hclose _]]]]]]].
  exists e. repeat split; assumption.
Defined.

(** * Further properties of the code *)

(** ** The classifier *)

Lemma handle_if_error_fails resp body w :
  ClientResponse.status resp <> 200%Z ->
  _handle_if_error resp body w = (Raised (failure_of resp body), warned w).
Proof.
  intros H. unfold failure_of.
  destruct (known_status (ClientResponse.status resp)) eqn:K.
  - destruct (EodResponse.error body) as [env|] eqn:E.
    + apply handle_if_error_envelope; assumption.
    + apply handle_if_error_missing; assumption.
  - apply handle_if_error_unknown; assumption.
Qed.

Lemma table_kind_in_family status key :
  issubclass (table_kind status key) (status_family status) = true.
Proof.
  unfold table_kind, status_family.
  split_status; split_key; reflexivity.
Qed.

Lemma issubclass_ResponseError c : issubclass c ResponseError = true.
Proof. destruct c; reflexivity. Qed.

(** X1.  [_handle_if_error] returns normally exactly on status 200, and
    then it logs nothing and does not look at the body, error envelope or
    not; on every other status it raises, after one WARNING line. *)
Theorem X1_returns_exactly_on_200 :
  forall (resp : ClientResponse.t) (body : EodResponse.t) (w : World),
    (fst (_handle_if_error resp body w) = Returned tt
     <-> ClientResponse.status resp = 200%Z)
    /\ snd (_handle_if_error resp body w)
       = (if (ClientResponse.status resp =? 200)%Z then w else warned w).
Proof.
  intros resp body w.
  destruct (Z.eqb_spec (ClientResponse.status resp) 200) as [H|H].
  - rewrite (handle_if_error_ok _ _ _ H). split; [|reflexivity].
    split; intros _; [exact H|reflexivity].
  - rewrite (handle_if_error_fails _ _ _ H). split; [|reflexivity].
    split; [discriminate|contradiction].
Qed.

(** X2.  A typed failure raised by [_handle_if_error] carries the very
    response that was classified, and its class is the default class of
    the status or a subclass of it (hence a subclass of [ResponseError]),
    whatever the envelope says. *)
Theorem X2_failure_is_in_the_family_of_the_status :
  forall (resp : ClientResponse.t) (body : EodResponse.t) (w : World)
         (c : ResponseErrorClass) (r : ClientResponse.t),
    fst (_handle_if_error resp body w) = Raised (ResponseException c r) ->
    r = resp
    /\ issubclass c (status_family (ClientResponse.status resp)) = true
    /\ issubclass c ResponseError = true.
Proof.
  intros resp body w c r.
  destruct (Z.eq_dec (ClientResponse.status resp) 200) as [H|H].
  - rewrite (handle_if_error_ok _ _ _ H). discriminate.
  - rewrite (handle_if_error_fails _ _ _ H). cbn [fst]. unfold failure_of.
    destruct (known_status (ClientResponse.status resp)) eqn:K.
    + destruct (EodResponse.error body) as [env|]; [|discriminate].
      intros E. inversion E; subst. split; [reflexivity|split].
      * apply table_kind_in_family.
      * apply issubclass_ResponseError.
    + intros E. inversion E; subst. split; [reflexivity|split].
      * revert K. unfold known_status, status_family.
        split_status; try discriminate. reflexivity.
      * reflexivity.
Qed.

Lemma X2_failure_is_in_the_family_of_the_status_witness :
  Scenario.bad_key = Scenario.bad_key
  /\ issubclass UnauthorizedError (status_family 401) = true
  /\ issubclass UnauthorizedError ResponseError = true.
Proof.
  apply (X2_failure_is_in_the_family_of_the_status
           Scenario.bad_key (ClientResponse.json Scenario.bad_key)
           (fresh_world (Sample.client FREE)) UnauthorizedError
           Scenario.bad_key eq_refl).
Defined.

(** ** The ranged query, page by page *)

Section Pages.

Variable server : nat -> Request -> ClientResponse.t.

Context {A : Type} (consume : A -> RawEod.t -> M A) (f : A -> RawEod.t -> A)
        (good : RawEod.t -> bool).
Hypothesis consume_pure :
  forall acc d w, good d = true -> consume acc d w = (Returned (f acc d), w).

Variables (u : string) (ps : list (string * string)).

(** [k] successful pages that do not report completion are read one after
    the other, and the loop goes on with the rest of its budget. *)
Lemma page_loop_skip k : forall n acc w,
  session_open w ->
  (forall i, i < k ->
     ClientResponse.status (page server (mkRequest u ps) w i) = 200%Z /\
     forallb good (rows (page server (mkRequest u ps) w i)) = true /\
     seen (page server (mkRequest u ps) w i)
     <> reported_total (page server (mkRequest u ps) w i)) ->
  page_loop server consume u ps (k + n) acc w
  = page_loop server consume u ps n
      (fold_left f (rows_upto server (mkRequest u ps) w k) acc)
      (after_requests (mkRequest u ps) k w).
Proof.
  induction k as [|k IH]; intros n acc w Ho Hp.
  - simpl. now rewrite after_requests_0.
  - destruct (Hp 0 ltac:(lia)) as [Hs [Hg Hne]].
    change (S k + n) with (S (k + n)).
    rewrite (page_loop_S server consume f good consume_pure u ps _ acc w
               Ho Hs Hg).
    cbv zeta.
    destruct (Z.eqb_spec (seen (page server (mkRequest u ps) w 0))
                (reported_total (page server (mkRequest u ps) w 0)));
      [contradiction|].
    rewrite IH.
    + rewrite rows_upto_S, fold_left_app, after_requests_S. reflexivity.
    + exact Ho.
    + intros i Hi. rewrite !page_shift. apply Hp. lia.
Qed.

(** A page that is not a 200 ends the loop with the classifier's
    exception. *)
Lemma page_loop_fails n acc w :
  session_open w ->
  ClientResponse.status (page server (mkRequest u ps) w 0) <> 200%Z ->
  page_loop server consume u ps (S n) acc w
  = (Raised (failure_of (page server (mkRequest u ps) w 0)
               (ClientResponse.json (page server (mkRequest u ps) w 0))),
     warned (after_requests (mkRequest u ps) 1 w)).
Proof.
  intros Ho Hs. simpl page_loop. unfold bind at 1.
  rewrite (session_get_open server u ps w Ho).
  unfold bind at 1. unfold log_debug, write_log. cbn [self sent logged].
  unfold bind at 1. rewrite (handle_if_error_fails _ _ _ Hs).
  reflexivity.
Qed.

End Pages.



(** The ranged query is its loop between reading the session and closing
    it, or not closing it when the deserialization of a row has raised. *)
Lemma get_eod_range_from_loop server symbols date_range exchange_filter
    N w r w' :
  session_open w ->
  page_loop server collect_eod (base_url (self w))
    (range_params (self w) symbols date_range exchange_filter)
    (Z.to_nat N) [] w = (r, w') ->
  self w' = self w ->
  get_eod_range server symbols date_range exchange_filter N w
  = match r with
    | Returned (Exhausted acc) => (Returned acc, closed_world w')
    | Returned (Abandoned e) => (Raised e, w')
    | Raised e => (Raised e, closed_world w')
    end.
Proof.
  intros Ho El Hs. unfold get_eod_range.
  now apply (helper_some server collect_eod symbols date_range
               exchange_filter N [] w (mkClientSession false)).
Qed.

Lemma get_eod_range_loop_raises server symbols date_range exchange_filter
    N w e w' :
  session_open w ->
  page_loop server collect_eod (base_url (self w))
    (range_params (self w) symbols date_range exchange_filter)
    (Z.to_nat N) [] w = (Raised e, w') ->
  self w' = self w ->
  get_eod_range server symbols date_range exchange_filter N w
  = (Raised e, closed_world w').
Proof.
  intros Ho El Hs.
  now rewrite (get_eod_range_from_loop server symbols date_range
                 exchange_filter N w (Raised e) w' Ho El Hs).
Qed.

Lemma page_after_requests server req k w i :
  page server req (after_requests req k w) i = page server req w (k + i).
Proof.
  unfold page, after_requests; cbn [sent].
  rewrite length_app, repeat_length. f_equal. lia.
Qed.

Lemma after_requests_add req a b w :
  after_requests req a (after_requests req b w) = after_requests req (b + a) w.
Proof.
  unfold after_requests; cbn [self sent logged].
  rewrite <- !app_assoc, !repeat_app. reflexivity.
Qed.

(** X3.  When page [k] of a ranged query is not a 200, after [k] successful
    pages that do not report completion, the query raises the classifier's
    exception for that page after exactly [k + 1] requests: the rows of the
    earlier pages are not returned, one WARNING line follows the [k + 1]
    DEBUG lines, and the session is left closed. *)
Theorem X3_failure_on_a_later_page_discards_the_rows :
  forall server symbols date_range exchange_filter (N : Z) (w : World)
         (k : nat),
    let req := range_request (self w) symbols date_range exchange_filter in
    session_open w ->
    (Z.of_nat k < N)%Z ->
    (forall i, i < k ->
       ClientResponse.status (page server req w i) = 200%Z /\
       forallb row_ok (rows (page server req w i)) = true /\
       seen (page server req w i) <> reported_total (page server req w i)) ->
    ClientResponse.status (page server req w k) <> 200%Z ->
    get_eod_range server symbols date_range exchange_filter N w
    = (Raised (failure_of (page server req w k)
                 (ClientResponse.json (page server req w k))),
       closed_world (warned (after_requests req (S k) w)))
    /\ issued w (closed_world (warned (after_requests req (S k) w)))
       = repeat req (S k).
Proof.
  intros server symbols date_range exchange_filter N w k req Ho Hk Hp Hs.
  split; [|apply issued_app; reflexivity].
  rewrite (get_eod_range_from_loop server symbols date_range exchange_filter
             N w
             (Raised (failure_of (page server req w k)
                        (ClientResponse.json (page server req w k))))
             (warned (after_requests req (S k) w)));
    [reflexivity|exact Ho| |reflexivity].
  replace (Z.to_nat N) with (k + S (Z.to_nat N - S k)) by lia.
  rewrite (page_loop_skip server collect_eod
             (fun a d => a ++ [deserialized d]) row_ok collect_eod_ok
             _ _ k _ [] w Ho Hp).
  fold req. rewrite page_loop_fails.
  - rewrite page_after_requests, after_requests_add, Nat.add_0_r.
    replace (k + 1) with (S k) by lia. reflexivity.
  - exact Ho.
  - rewrite page_after_requests, Nat.add_0_r. exact Hs.
Qed.

Lemma X3_failure_on_a_later_page_discards_the_rows_witness :
  let w := Sample.entered FREE in
  let req :=
    range_request (self w) ["AMZN"] (Sample.july_17, Sample.july_17) None in
  get_eod_range Scenario.page_then_failure ["AMZN"]
    (Sample.july_17, Sample.july_17) None 10 w
  = (Raised (RuntimeError
               (Msg_missing_error (ClientResponse.json Sample.unexplained))),
     closed_world (warned (after_requests req 2 w)))
  /\ issued w (closed_world (warned (after_requests req 2 w))) = [req; req].
Proof.
  apply (X3_failure_on_a_later_page_discards_the_rows
           Scenario.page_then_failure ["AMZN"]
           (Sample.july_17, Sample.july_17) None 10 (Sample.entered FREE) 1).
  - reflexivity.
  - lia.
  - intros i Hi. assert (i = 0) by lia. subst i.
    repeat split. discriminate.
  - discriminate.
Defined.



(** X5.  With a budget of zero or less the ranged query sends nothing and
    returns the empty tuple; the generator has run to its end, so the
    session is left closed. *)
Theorem X5_empty_budget_sends_nothing :
  forall server symbols date_range exchange_filter (N : Z) (w : World),
    session_open w ->
    (N <= 0)%Z ->
    get_eod_range server symbols date_range exchange_filter N w
    = (Returned [], closed_world w).
Proof.
  intros server symbols date_range exchange_filter N w Ho HN.
  rewrite (get_eod_range_from_loop server symbols date_range exchange_filter
             N w (Returned (Exhausted [])) w);
    [reflexivity|exact Ho| |reflexivity].
  replace (Z.to_nat N) with 0 by lia. reflexivity.
Qed.

Lemma X5_empty_budget_sends_nothing_witness :
  get_eod_range (Sample.always Scenario.partial_page) ["AMZN"]
    (Sample.july_17, Sample.july_17) None (-3) (Sample.entered FREE)
  = (Returned [], closed_world (Sample.entered FREE)).
Proof.
  apply (X5_empty_budget_sends_nothing
           (Sample.always Scenario.partial_page) ["AMZN"]
           (Sample.july_17, Sample.july_17) None (-3) (Sample.entered FREE)).
  - reflexivity.
  - lia.
Defined.

Lemma flat_map_constant {A B} (l : list B) (xs : list A) :
  flat_map (fun _ => l) xs = List.concat (repeat l (List.length xs)).
Proof.
  induction xs as [|x xs IH]; simpl; [reflexivity|now rewrite IH].
Qed.

(** X6.  The loop sends the same request every time: nothing in it moves
    the offset.  Against a server whose answer depends on the request
    alone, a first page that does not report completion is therefore
    fetched [N] times, and the query returns its rows [N] times over. *)
Theorem X6_same_page_again_from_a_stateless_server :
  forall server symbols date_range exchange_filter (N : Z) (w : World),
    let req := range_request (self w) symbols date_range exchange_filter in
    let first := page server req w 0 in
    stateless server ->
    session_open w ->
    ClientResponse.status first = 200%Z ->
    forallb row_ok (rows first) = true ->
    seen first <> reported_total first ->
    get_eod_range server symbols date_range exchange_filter N w
    = (Returned (map deserialized
                   (List.concat (repeat (rows first) (Z.to_nat N)))),
       closed_world (after_requests req (Z.to_nat N) w)).
Proof.
  intros server symbols date_range exchange_filter N w req first
         Hst Ho Hs Hg Hne.
  assert (Hpage : forall i, page server req w i = first).
  { intros i. unfold first, page. apply Hst. }
  unfold get_eod_range.
  rewrite (helper_run server collect_eod
             (fun a d => a ++ [deserialized d]) row_ok collect_eod_ok
             (base_url (self w))
             (range_params (self w) symbols date_range exchange_filter)
             symbols date_range exchange_filter N (Z.to_nat N) [] w).
  - rewrite (fold_left_snoc deserialized). fold req. cbn [app].
    unfold rows_upto.
    rewrite (flat_map_ext _ (fun _ => rows first))
      by (intros i; now rewrite Hpage).
    rewrite flat_map_constant, length_seq. reflexivity.
  - exact Ho.
  - lia.
  - reflexivity.
  - reflexivity.
  - intros i _. fold req. rewrite Hpage. split; assumption.
  - intros i _. fold req. rewrite Hpage. exact Hne.
  - left. reflexivity.
Qed.

Lemma X6_same_page_again_from_a_stateless_server_witness :
  let w := Sample.entered FREE in
  let req :=
    range_request (self w) ["AMZN"] (Sample.july_17, Sample.july_17) None in
  get_eod_range (Sample.always Scenario.partial_page) ["AMZN"]
    (Sample.july_17, Sample.july_17) None 3 w
  = (Returned (map deserialized [Sample.amzn; Sample.amzn; Sample.amzn]),
     closed_world (after_requests req 3 w)).
Proof.
  apply (X6_same_page_again_from_a_stateless_server
           (Sample.always Scenario.partial_page) ["AMZN"]
           (Sample.july_17, Sample.july_17) None 3 (Sample.entered FREE)).
  - intros i j r. reflexivity.
  - reflexivity.
  - reflexivity.
  - reflexivity.
  - discriminate.
Defined.

(** ** The single-date query, on every path *)

Lemma get_eod_below_basic server symbols d exchange_filter w :
  (plan_value (plan (self w)) <? plan_value BASIC)%Z = true ->
  get_eod server symbols d exchange_filter w
  = get_eod_range server symbols (d, d) exchange_filter 10 w.
Proof.
  intros H. unfold get_eod, get_self. unfold bind at 1. cbv beta iota.
  rewrite H. reflexivity.
Qed.

Lemma get_eod_direct_fails server symbols d exchange_filter w :
  session_open w ->
  (plan_value (plan (self w)) <? plan_value BASIC)%Z = false ->
  let req := date_request (self w) symbols d exchange_filter in
  ClientResponse.status (page server req w 0) <> 200%Z ->
  get_eod server symbols d exchange_filter w
  = (Raised (failure_of (page server req w 0)
               (ClientResponse.json (page server req w 0))),
     closed_world (warned (after_requests req 1 w))).
Proof.
  intros Ho Hplan req Hs. unfold get_eod, get_self.
  unfold bind at 1. cbv beta iota. rewrite Hplan.
  apply (async_with_session_some _ w (mkClientSession false));
    [exact Ho| |reflexivity].
  unfold bind at 1. rewrite (session_get_open server _ _ w Ho).
  unfold bind at 1. unfold log_debug, write_log. cbn [self sent logged].
  unfold bind at 1. rewrite (handle_if_error_fails _ _ _ Hs).
  reflexivity.
Qed.

Lemma get_eod_fails server symbols d exchange_filter w :
  session_open w ->
  ClientResponse.status
    (page server (single_date_request w symbols d exchange_filter) w 0)
  <> 200%Z ->
  get_eod server symbols d exchange_filter w
  = (Raised (failure_of
               (page server (single_date_request w symbols d exchange_filter)
                  w 0)
               (ClientResponse.json
                  (page server
                     (single_date_request w symbols d exchange_filter) w 0))),
     closed_world
       (warned
          (after_requests (single_date_request w symbols d exchange_filter)
             1 w))).
Proof.
  intros Ho Hs. unfold single_date_request in *.
  destruct (plan_value (plan (self w)) <? plan_value BASIC)%Z eqn:Hplan.
  - rewrite (get_eod_below_basic _ _ _ _ _ Hplan).
    apply get_eod_range_loop_raises; [exact Ho| |reflexivity].
    change (Z.to_nat 10) with (S 9).
    now apply page_loop_fails.
  - now apply get_eod_direct_fails.
Qed.

(** X7.  On either path of the single-date query, a first answer that is
    not a 200 makes the query raise the classifier's exception for that
    answer after exactly one request; nothing is deserialized, one WARNING
    line is logged and the session is left closed. *)
Theorem X7_single_date_failure_propagates :
  forall server symbols (d : datetime.date) exchange_filter (w : World),
    let req := single_date_request w symbols d exchange_filter in
    session_open w ->
    ClientResponse.status (page server req w 0) <> 200%Z ->
    get_eod server symbols d exchange_filter w
    = (Raised (failure_of (page server req w 0)
                 (ClientResponse.json (page server req w 0))),
       closed_world (warned (after_requests req 1 w)))
    /\ issued w (closed_world (warned (after_requests req 1 w))) = [req].
Proof.
  intros server symbols d exchange_filter w req Ho Hs.
  split; [|apply issued_app; reflexivity].
  now apply get_eod_fails.
Qed.

Lemma X7_single_date_failure_propagates_witness :
  let w := Sample.entered BASIC in
  let req := date_request (self w) ["AMZN"] Sample.july_17 None in
  get_eod (Sample.always Scenario.bad_key) ["AMZN"] Sample.july_17 None w
  = (Raised (ResponseException UnauthorizedError Scenario.bad_key),
     closed_world (warned (after_requests req 1 w)))
  /\ issued w (closed_world (warned (after_requests req 1 w))) = [req].
Proof.
  apply (X7_single_date_failure_propagates
           (Sample.always Scenario.bad_key) ["AMZN"] Sample.july_17 None
           (Sample.entered BASIC)).
  - reflexivity.
  - discriminate.
Defined.

(** The body of the date-scoped path sends its request at most once. *)
Lemma sends_date_body server (me : _MarketstackClient) symbols d
    exchange_filter :
  sends (date_request me symbols d exchange_filter) 1
    (resp <- session_get server
               (base_url me ++ "/" ++ _format_date d)%string
               ([ ("access_key", _access_key me);
                  ("symbols", String.concat "," symbols) ]
                ++ exchange_param exchange_filter) ;;
     log_debug "Finished Query." ;;;
     _handle_if_error resp (ClientResponse.json resp) ;;;
     (if negb (List.length (EodResponse.data (ClientResponse.json resp)) =? 1)
      then log_error "Length of the response data is not 1"
             (List.length (EodResponse.data (ClientResponse.json resp)))
      else ret tt) ;;;
     mapM _deserialize_eod (EodResponse.data (ClientResponse.json resp))).
Proof.
  change 1 with (1 + 0).
  apply sends_bind; [apply sends_session_get|intros resp].
  apply quiet_sends.
  apply quiet_bind; [apply quiet_write_log|intros _].
  apply quiet_bind; [apply quiet_handle_if_error|intros _].
  apply quiet_bind.
  - destruct (negb _); [apply quiet_write_log|apply quiet_ret].
  - intros _. apply quiet_mapM, quiet_deserialize_eod.
Qed.

(** What [async with self._session] does to a body that leaves the client
    object alone: the client keeps its fields, the session it had is
    closed, and the requests are those of the body. *)
Lemma async_with_session_footprint req n {A} (body : M A) w :
  sends req n body ->
  (self (snd (async_with_session body w))
   = match _client_session (self w) with
     | None => self w
     | Some _ => closed_client (self w)
     end)
  /\ exists j, j <= n /\
       sent (snd (async_with_session body w)) = sent w ++ repeat req j.
Proof.
  intros Hb. destruct (_client_session (self w)) as [s|] eqn:Hs.
  - destruct (Hb w) as [Hself [j [Hj Hsent]]].
    destruct (body w) as [r w'] eqn:E. cbn [snd] in Hself, Hsent.
    rewrite (async_with_session_some body w s r w' Hs E Hself).
    split.
    + cbn [snd closed_world self]. now rewrite Hself.
    + exists j. split; [exact Hj|exact Hsent].
  - rewrite (async_with_session_none body w Hs). split; [reflexivity|].
    exists 0. split; [lia|]. simpl. now rewrite app_nil_r.
Qed.

(** An iteration is abandoned only with an exception of its consumer. *)
Lemma yield_each_abandoned {A} (consume : A -> RawEod.t -> M A)
    (P : exn -> Prop) :
  (forall a d w e, fst (consume a d w) = Raised e -> P e) ->
  forall ds acc w e,
    fst (yield_each consume ds acc w) = Returned (Abandoned e) -> P e.
Proof.
  intros Hc. induction ds as [|d ds IH]; intros acc w e; simpl.
  - discriminate.
  - specialize (Hc acc d w).
    destruct (consume acc d w) as [[a|e0] w']; simpl in *.
    + apply IH.
    + intros H. inversion H; subst. now apply Hc.
Qed.

Lemma page_loop_abandoned server {A} (consume : A -> RawEod.t -> M A)
    (P : exn -> Prop) u ps :
  (forall a d w e, fst (consume a d w) = Raised e -> P e) ->
  forall n acc w e,
    fst (page_loop server consume u ps n acc w) = Returned (Abandoned e) ->
    P e.
Proof.
  intros Hc. induction n as [|n IH]; intros acc w e.
  - simpl. discriminate.
  - simpl page_loop. unfold bind at 1.
    destruct (session_get server u ps w) as [[resp|e0] w1]; [|discriminate].
    unfold bind at 1. unfold log_debug, write_log.
    unfold bind at 1.
    destruct (_handle_if_error resp (ClientResponse.json resp) _)
      as [[[]|e1] w2]; [|discriminate].
    unfold bind at 1.
    destruct (yield_each consume
                (EodResponse.data (ClientResponse.json resp)) acc w2)
      as [[[a|e2]|e2] w3] eqn:Ey.
    + destruct (_ =? _)%Z; [discriminate|apply IH].
    + intros H. inversion H; subst.
      apply (yield_each_abandoned consume P Hc
               (EodResponse.data (ClientResponse.json resp)) acc w2).
      now rewrite Ey.
    + discriminate.
Qed.

(** The comprehension of the ranged query raises nothing but the
    [ValueError] of a date that cannot be read. *)
Lemma collect_eod_raises a d w e :
  fst (collect_eod a d w) = Raised e -> exists s, e = ValueError s.
Proof.
  unfold collect_eod, bind, _deserialize_eod.
  destruct (datetime.fromisoformat (RawEod.date d)); simpl.
  - discriminate.
  - intros H. inversion H. now exists (RawEod.date d).
Qed.

(** What the generator and its consumer do to the client and to the
    network: the fields of the client are kept and the session it had is
    closed, unless the consumer raised, in which case the client is as it
    was; the requests are those of the loop. *)
Lemma helper_footprint server {A} (consume : A -> RawEod.t -> M A)
    (P : exn -> Prop) symbols date_range exchange_filter N acc w :
  (forall a d, quiet (consume a d)) ->
  (forall a d w0 e, fst (consume a d w0) = Raised e -> P e) ->
  (self (snd (_get_eod_range_helper server symbols date_range
                exchange_filter N consume acc w))
   = match _client_session (self w) with
     | None => self w
     | Some _ => closed_client (self w)
     end
   \/ (self (snd (_get_eod_range_helper server symbols date_range
                    exchange_filter N consume acc w))
       = self w
       /\ exists e,
            fst (_get_eod_range_helper server symbols date_range
                   exchange_filter N consume acc w) = Raised e
            /\ P e))
  /\ exists j, j <= Z.to_nat N /\
       sent (snd (_get_eod_range_helper server symbols date_range
                    exchange_filter N consume acc w))
       = sent w
         ++ repeat (range_request (self w) symbols date_range
                      exchange_filter) j.
Proof.
  intros Hq Hc. split; [|now apply helper_sends].
  destruct (_client_session (self w)) as [s|] eqn:Hs.
  - pose proof (sends_page_loop server consume (base_url (self w))
                  (range_params (self w) symbols date_range exchange_filter)
                  Hq (Z.to_nat N) acc w) as [Hself _].
    pose proof (page_loop_abandoned server consume P (base_url (self w))
                  (range_params (self w) symbols date_range exchange_filter)
                  Hc (Z.to_nat N) acc w) as Hab.
    destruct (page_loop server consume (base_url (self w))
                (range_params (self w) symbols date_range exchange_filter)
                (Z.to_nat N) acc w) as [r w'] eqn:E.
    cbn [fst snd] in Hself, Hab.
    rewrite (helper_some server consume symbols date_range exchange_filter
               N acc w s r w' Hs E Hself).
    destruct r as [[a|e]|e].
    + left. cbn [snd closed_world self]. now rewrite Hself.
    + right. split; [exact Hself|]. exists e. split; [reflexivity|].
      now apply Hab.
    + left. cbn [snd closed_world self]. now rewrite Hself.
  - left. now rewrite helper_none by exact Hs.
Qed.

Lemma get_eod_range_footprint server symbols date_range exchange_filter N w :
  (self (snd (get_eod_range server symbols date_range exchange_filter N w))
   = match _client_session (self w) with
     | None => self w
     | Some _ => closed_client (self w)
     end
   \/ (self (snd (get_eod_range server symbols date_range exchange_filter
                    N w))
       = self w
       /\ exists s,
            fst (get_eod_range server symbols date_range exchange_filter
                   N w)
            = Raised (ValueError s)))
  /\ exists j, j <= Z.to_nat N /\
       sent (snd (get_eod_range server symbols date_range exchange_filter
                    N w))
       = sent w
         ++ repeat (range_request (self w) symbols date_range
                      exchange_filter) j.
Proof.
  unfold get_eod_range.
  destruct (helper_footprint server collect_eod
              (fun e => exists s, e = ValueError s)
              symbols date_range exchange_filter N [] w
              quiet_collect_eod collect_eod_raises) as [H1 H2].
  split; [|exact H2].
  destruct H1 as [H1|[H1 [e [He [s Hv]]]]]; [now left|right].
  split; [exact H1|]. exists s. now rewrite He, Hv.
Qed.

Lemma get_eod_footprint server symbols d exchange_filter w :
  (self (snd (get_eod server symbols d exchange_filter w))
   = match _client_session (self w) with
     | None => self w
     | Some _ => closed_client (self w)
     end
   \/ ((plan_value (plan (self w)) <? plan_value BASIC)%Z = true
       /\ self (snd (get_eod server symbols d exchange_filter w)) = self w
       /\ exists s,
            fst (get_eod server symbols d exchange_filter w)
            = Raised (ValueError s)))
  /\ exists j,
       j <= (if (plan_value (plan (self w)) <? plan_value BASIC)%Z
             then 10 else 1) /\
       sent (snd (get_eod server symbols d exchange_filter w))
       = sent w
         ++ repeat (single_date_request w symbols d exchange_filter) j.
Proof.
  unfold single_date_request.
  destruct (plan_value (plan (self w)) <? plan_value BASIC)%Z eqn:Hplan.
  - rewrite (get_eod_below_basic _ _ _ _ _ Hplan).
    destruct (get_eod_range_footprint server symbols (d, d) exchange_filter
                10 w) as [H1 H2].
    split; [|exact H2].
    destruct H1 as [H1|[H1 H3]]; [now left|right].
    split; [reflexivity|]. split; assumption.
  - assert (E : get_eod server symbols d exchange_filter w
                = async_with_session
                    (resp <- session_get server
                               (base_url (self w) ++ "/" ++ _format_date d)%string
                               ([ ("access_key", _access_key (self w));
                                  ("symbols", String.concat "," symbols) ]
                                ++ exchange_param exchange_filter) ;;
                     log_debug "Finished Query." ;;;
                     _handle_if_error resp (ClientResponse.json resp) ;;;
                     (if negb (List.length
                                 (EodResponse.data (ClientResponse.json resp))
                               =? 1)
                      then log_error "Length of the response data is not 1"
                             (List.length
                                (EodResponse.data (ClientResponse.json resp)))
                      else ret tt) ;;;
                     mapM _deserialize_eod
                       (EodResponse.data (ClientResponse.json resp))) w).
    { unfold get_eod, get_self. unfold bind at 1. cbv beta iota.
      rewrite Hplan. reflexivity. }
    rewrite E.
    destruct (async_with_session_footprint
                (date_request (self w) symbols d exchange_filter) 1
                _ w (sends_date_body server (self w) symbols d
                       exchange_filter)) as [H1 H2].
    split; [now left|exact H2].
Qed.

(** X8.  At plan BASIC or above the single-date query never paginates:
    whatever the server answers and whatever the state of the session, it
    sends at most one request, and that request goes to the date-scoped
    URL: the base URL, a slash and the date as [_format_date] prints
    it. *)
Theorem X8_single_date_sends_at_most_one_request :
  forall server symbols (d : datetime.date) exchange_filter (w : World),
    (plan_value BASIC <= plan_value (plan (self w)))%Z ->
    exists j,
      j <= 1
      /\ issued w (snd (get_eod server symbols d exchange_filter w))
         = repeat (date_request (self w) symbols d exchange_filter) j
      /\ url (date_request (self w) symbols d exchange_filter)
         = (base_url (self w) ++ "/" ++ _format_date d)%string.
Proof.
  intros server symbols d exchange_filter w Hplan.
  destruct (get_eod_footprint server symbols d exchange_filter w)
    as [_ [j [Hj Hs]]].
  unfold single_date_request in Hs.
  destruct (Z.ltb_spec (plan_value (plan (self w))) (plan_value BASIC));
    [lia|].
  exists j. repeat split; [exact Hj|].
  apply issued_app. exact Hs.
Qed.

Lemma X8_single_date_sends_at_most_one_request_witness :
  exists j,
    j <= 1
    /\ issued (Sample.entered BUSINESS)
         (snd (get_eod (Sample.always Scenario.partial_page) ["AMZN"]
                 Sample.july_17 None (Sample.entered BUSINESS)))
       = repeat (date_request (self (Sample.entered BUSINESS)) ["AMZN"]
                   Sample.july_17 None) j
    /\ url (date_request (self (Sample.entered BUSINESS)) ["AMZN"]
              Sample.july_17 None)
       = "http://api.marketstack.com/v1/eod/2023-07-17".
Proof.
  apply (X8_single_date_sends_at_most_one_request
           (Sample.always Scenario.partial_page) ["AMZN"] Sample.july_17
           None (Sample.entered BUSINESS)).
  simpl. lia.
Defined.

(** X9.  No query changes the configuration of the client (base URL, plan,
    access key).  A query leaves the session it found closed, with one
    exception: when the ranged query, and so the single-date query below
    plan BASIC, raises the [ValueError] of a row whose date cannot be
    read, the generator is abandoned inside its [async with] block and the
    session is as the query found it.  So a session that is open after a
    query was open before it and the query has raised [ValueError]; from
    plan BASIC on, the single-date query never leaves an open session. *)
Theorem X9_queries_keep_the_configuration :
  forall server symbols (d : datetime.date) date_range exchange_filter
         (N : Z) (w : World),
    let r1 := get_eod server symbols d exchange_filter w in
    let r2 := get_eod_range server symbols date_range exchange_filter N w in
    (base_url (self (snd r1)) = base_url (self w)
     /\ plan (self (snd r1)) = plan (self w)
     /\ _access_key (self (snd r1)) = _access_key (self w)
     /\ (session_open (snd r1) ->
         session_open w /\ exists s, fst r1 = Raised (ValueError s))
     /\ ((plan_value BASIC <= plan_value (plan (self w)))%Z ->
         ~ session_open (snd r1)))
    /\ (base_url (self (snd r2)) = base_url (self w)
        /\ plan (self (snd r2)) = plan (self w)
        /\ _access_key (self (snd r2)) = _access_key (self w)
        /\ (session_open (snd r2) ->
            session_open w /\ exists s, fst r2 = Raised (ValueError s))).
Proof.
  intros server symbols d date_range exchange_filter N w r1 r2.
  destruct (get_eod_footprint server symbols d exchange_filter w)
    as [H1 _].
  destruct (get_eod_range_footprint server symbols date_range
              exchange_filter N w) as [H2 _].
  fold r1 in H1. fold r2 in H2. unfold session_open.
  split.
  - destruct H1 as [H1|[Hplan [H1 Hv]]]; rewrite H1.
    + destruct (_client_session (self w)) as [s|] eqn:E;
        repeat split; cbn in *; intros; congruence.
    + repeat split; [intros; assumption|intros; exact Hv|].
      intros Hb. apply Z.ltb_lt in Hplan. lia.
  - destruct H2 as [H2|[H2 Hv]]; rewrite H2.
    + destruct (_client_session (self w)) as [s|] eqn:E;
        repeat split; cbn in *; intros; congruence.
    + repeat split; [intros; assumption|intros; exact Hv].
Qed.

Lemma X9_queries_keep_the_configuration_witness :
  let server :=
    Sample.always
      (Sample.page_of 1000 0 2 5 [Sample.amzn; Scenario.impossible_day]) in
  let w := Sample.entered FREE in
  session_open w
  /\ exists s,
       fst (get_eod_range server ["AMZN"] (Sample.july_17, Sample.july_17)
              None 10 w)
       = Raised (ValueError s).
Proof.
  apply (proj2 (proj2 (proj2
           (proj2 (X9_queries_keep_the_configuration
                     (Sample.always
                        (Sample.page_of 1000 0 2 5
                           [Sample.amzn; Scenario.impossible_day]))
                     ["AMZN"] Sample.july_17
                     (Sample.july_17, Sample.july_17) None 10
                     (Sample.entered FREE)))))).
  reflexivity.
Defined.

(** X10.  Every request a ranged query sends, under any server, goes to
    the base URL and carries the access key, the symbols joined by commas,
    the two dates as [_format_date] prints them, the limit 1000, and the
    exchange exactly when a filter is given; it never carries an
    offset. *)
Theorem X10_parameters_of_the_ranged_requests :
  forall server symbols date_range exchange_filter (N : Z) (w : World)
         (r : Request),
    In r (issued w (snd (get_eod_range server symbols date_range
                           exchange_filter N w))) ->
    url r = base_url (self w)
    /\ dict_get String.eqb "access_key" (params r)
       = Some (_access_key (self w))
    /\ dict_get String.eqb "symbols" (params r)
       = Some (String.concat "," symbols)
    /\ dict_get String.eqb "date_from" (params r)
       = Some (_format_date (fst date_range))
    /\ dict_get String.eqb "date_to" (params r)
       = Some (_format_date (snd date_range))
    /\ dict_get String.eqb "limit" (params r) = Some "1000"
    /\ dict_get String.eqb "exchange" (params r) = exchange_filter
    /\ dict_get String.eqb "offset" (params r) = None.
Proof.
  intros server symbols date_range exchange_filter N w r Hr.
  destruct (get_eod_range_footprint server symbols date_range
              exchange_filter N w) as [_ [j [_ Hs]]].
  rewrite (issued_app _ _ _ Hs) in Hr. apply repeat_spec in Hr. subst r.
  destruct exchange_filter; repeat split.
Qed.

Lemma X10_parameters_of_the_ranged_requests_witness :
  let w := Sample.entered FREE in
  let r :=
    range_request (self w) ["AMZN"; "MSFT"]
      (Sample.july_17, Sample.july_17) (Some "XNAS") in
  url r = "http://api.marketstack.com/v1/eod"
  /\ dict_get String.eqb "access_key" (params r) = Some "key"
  /\ dict_get String.eqb "symbols" (params r) = Some "AMZN,MSFT"
  /\ dict_get String.eqb "date_from" (params r) = Some "2023-07-17"
  /\ dict_get String.eqb "date_to" (params r) = Some "2023-07-17"
  /\ dict_get String.eqb "limit" (params r) = Some "1000"
  /\ dict_get String.eqb "exchange" (params r) = Some "XNAS"
  /\ dict_get String.eqb "offset" (params r) = None.
Proof.
  apply (X10_parameters_of_the_ranged_requests
           (Sample.always Scenario.complete_page) ["AMZN"; "MSFT"]
           (Sample.july_17, Sample.july_17) (Some "XNAS") 10
           (Sample.entered FREE)).
  left. reflexivity.
Defined.

(** X11.  The plan decides the request, not the answer of the query: when
    the collection endpoint answers a FREE client with one complete page
    and the date-scoped endpoint answers a client at BASIC or above with
    the same rows, both single-date queries return the same records. *)
Theorem X11_same_records_on_either_path :
  forall server symbols (d : datetime.date) exchange_filter
         (wF wB : World) (ds : list RawEod.t),
    let pF :=
      page server (range_request (self wF) symbols (d, d) exchange_filter)
        wF 0 in
    let pB :=
      page server (date_request (self wB) symbols d exchange_filter) wB 0 in
    session_open wF ->
    session_open wB ->
    plan (self wF) = FREE ->
    (plan_value BASIC <= plan_value (plan (self wB)))%Z ->
    ClientResponse.status pF = 200%Z ->
    ClientResponse.status pB = 200%Z ->
    seen pF = reported_total pF ->
    rows pF = ds ->
    rows pB = ds ->
    forallb row_ok ds = true ->
    fst (get_eod server symbols d exchange_filter wF)
    = Returned (map deserialized ds)
    /\ fst (get_eod server symbols d exchange_filter wB)
       = Returned (map deserialized ds).
Proof.
  intros server symbols d exchange_filter wF wB ds pF pB
         HoF HoB Hfree Hbasic HsF HsB Hdone HrF HrB Hg.
  split.
  - rewrite (get_eod_free _ _ _ _ _ Hfree). unfold get_eod_range.
    rewrite (helper_run server collect_eod
               (fun a x => a ++ [deserialized x]) row_ok collect_eod_ok
               (base_url (self wF))
               (range_params (self wF) symbols (d, d) exchange_filter)
               symbols (d, d) exchange_filter 10 1 [] wF).
    + cbn [fst]. rewrite (fold_left_snoc deserialized).
      unfold rows_upto. cbn [seq flat_map app].
      fold (range_request (self wF) symbols (d, d) exchange_filter).
      fold pF. rewrite HrF, app_nil_r. reflexivity.
    + exact HoF.
    + simpl. lia.
    + reflexivity.
    + reflexivity.
    + intros i Hi. assert (i = 0) by lia. subst i.
      fold (range_request (self wF) symbols (d, d) exchange_filter).
      fold pF. rewrite HrF. split; assumption.
    + intros i Hi. lia.
    + right. exists 0. split; [reflexivity|exact Hdone].
  - rewrite (get_eod_direct server symbols d exchange_filter wB HoB Hbasic
               HsB).
    + cbn [fst]. fold pB. now rewrite HrB.
    + fold pB. now rewrite HrB.
Qed.

Lemma X11_same_records_on_either_path_witness :
  fst (get_eod (Sample.always Scenario.complete_page) ["AMZN"]
         Sample.july_17 None (Sample.entered FREE))
  = Returned (map deserialized [Sample.amzn])
  /\ fst (get_eod (Sample.always Scenario.complete_page) ["AMZN"]
            Sample.july_17 None (Sample.entered PROFESSIONAL))
     = Returned (map deserialized [Sample.amzn]).
Proof.
  apply (X11_same_records_on_either_path
           (Sample.always Scenario.complete_page) ["AMZN"] Sample.july_17
           None (Sample.entered FREE) (Sample.entered PROFESSIONAL)
           [Sample.amzn]).
  - reflexivity.
  - reflexivity.
  - reflexivity.
  - simpl. lia.
  - reflexivity.
  - reflexivity.
  - reflexivity.
  - reflexivity.
  - reflexivity.
  - reflexivity.
Defined.

(** ** The scope of the client *)

(** The world after [__aenter__]. *)
Lemma aenter_world w :
  __aenter__ w
  = (Returned tt,
     mkWorld (mkClient (base_url (self w)) (plan (self w))
                (Some (mkClientSession false)) (_access_key (self w)))
             (sent w) (logged w)).
Proof. reflexivity. Qed.

(** X12.  Entering the client again gives it a fresh, open session,
    whatever became of the previous one: at plan BASIC or above, two
    single-date queries with [__aenter__] between them both perform their
    request and both return their records. *)
Theorem X12_entering_again_reopens_the_session :
  forall server symbols1 (d1 : datetime.date) filter1
         symbols2 (d2 : datetime.date) filter2 (w : World),
    let p1 := page server (date_request (self w) symbols1 d1 filter1) w 0 in
    let p2 := page server (date_request (self w) symbols2 d2 filter2) w 1 in
    session_open w ->
    (plan_value BASIC <= plan_value (plan (self w)))%Z ->
    ClientResponse.status p1 = 200%Z ->
    forallb row_ok (rows p1) = true ->
    ClientResponse.status p2 = 200%Z ->
    forallb row_ok (rows p2) = true ->
    fst ((r1 <- get_eod server symbols1 d1 filter1 ;;
          __aenter__ ;;;
          r2 <- get_eod server symbols2 d2 filter2 ;;
          ret (r1, r2)) w)
    = Returned (map deserialized (rows p1), map deserialized (rows p2)).
Proof.
  intros server symbols1 d1 filter1 symbols2 d2 filter2 w p1 p2
         Ho Hplan Hs1 Hg1 Hs2 Hg2.
  unfold bind at 1.
  rewrite (get_eod_direct server symbols1 d1 filter1 w Ho Hplan Hs1 Hg1).
  unfold bind at 1. rewrite aenter_world.
  match goal with
  | |- context [bind (get_eod _ _ _ _) _ ?w1] => set (w1' := w1)
  end.
  assert (Hp : page server (date_request (self w1') symbols2 d2 filter2) w1' 0
               = p2).
  { unfold p2, page, w1'. cbn [sent self closed_world after_date_query].
    rewrite length_app. cbn [List.length]. f_equal. lia. }
  unfold bind at 1.
  rewrite (get_eod_direct server symbols2 d2 filter2 w1').
  - rewrite Hp. reflexivity.
  - reflexivity.
  - exact Hplan.
  - rewrite Hp. exact Hs2.
  - rewrite Hp. exact Hg2.
Qed.

Lemma X12_entering_again_reopens_the_session_witness :
  let server := Sample.always Scenario.complete_page in
  fst ((r1 <- get_eod server ["AMZN"] Sample.july_17 None ;;
        __aenter__ ;;;
        r2 <- get_eod server ["AMZN"] Sample.july_17 None ;;
        ret (r1, r2)) (Sample.entered BASIC))
  = Returned (map deserialized [Sample.amzn], map deserialized [Sample.amzn]).
Proof.
  apply (X12_entering_again_reopens_the_session
           (Sample.always Scenario.complete_page)
           ["AMZN"] Sample.july_17 None ["AMZN"] Sample.july_17 None
           (Sample.entered BASIC)).
  - reflexivity.
  - simpl. lia.
  - reflexivity.
  - reflexivity.
  - reflexivity.
  - reflexivity.
Defined.

Lemma async_with_client_run {A} (body : M A) w r w1 :
  body (snd (__aenter__ w)) = (r, w1) ->
  _client_session (self w1) <> None ->
  async_with_client body w = (r, closed_world w1).
Proof.
  intros E Hs. unfold async_with_client. unfold bind at 1.
  rewrite aenter_world. rewrite aenter_world in E. cbn [snd] in E.
  rewrite E.
  unfold __aexit__, _session, get_self, session_close, bind.
  cbv beta iota.
  destruct (_client_session (self w1)) as [s|] eqn:Es; [|contradiction].
  unfold ret, get_self. cbv beta iota. rewrite Es. reflexivity.
Qed.

(** X13.  [async with client: body] releases the session on every path:
    when the body keeps a session in place, the block ends with the outcome
    of the body, be it a value or an exception, and with the session
    closed. *)
Theorem X13_the_scope_closes_the_session_on_every_path :
  forall (A : Type) (body : M A) (w : World),
    (forall w0,
        _client_session (self w0) <> None ->
        _client_session (self (snd (body w0))) <> None) ->
    fst (async_with_client body w) = fst (body (snd (__aenter__ w)))
    /\ session_closed (snd (async_with_client body w)).
Proof.
  intros A body w Hkeep. unfold async_with_client. unfold bind at 1 2.
  rewrite aenter_world. cbn [snd].
  match goal with
  | |- context [body ?w0] =>
      assert (Hs : _client_session (self (snd (body w0))) <> None)
        by (apply Hkeep; discriminate);
      destruct (body w0) as [r w1]
  end.
  cbn [snd fst] in *.
  unfold __aexit__, _session, get_self, session_close, bind.
  cbv beta iota.
  destruct (_client_session (self w1)) as [s|] eqn:E; [|contradiction].
  unfold ret, get_self. cbv beta iota. rewrite E.
  split; reflexivity.
Qed.

Lemma X13_the_scope_closes_the_session_on_every_path_witness :
  fst (async_with_client (ret tt)
         (fresh_world (snd (HttpsMarketstackClient "key" FREE))))
  = Returned tt
  /\ session_closed
       (snd (async_with_client (ret tt)
               (fresh_world (snd (HttpsMarketstackClient "key" FREE))))).
Proof.
  apply (X13_the_scope_closes_the_session_on_every_path unit (ret tt)
           (fresh_world (snd (HttpsMarketstackClient "key" FREE)))).
  intros w0 H. exact H.
Defined.

(** X14.  A single-date query made inside the scope of a freshly built
    client, on any plan, and answered 401 with an error envelope, makes the
    whole block raise an exception whose class is [UnauthorizedError] or
    one of its subclasses, whatever the envelope says; one request was
    sent, and the block leaves the session closed. *)
Theorem X14_bad_key_raises_in_the_unauthorized_family :
  forall server access_key p symbols (d : datetime.date) exchange_filter
         (env : ErrorResponse.t),
    let w := fresh_world (snd (HttpMarketstackClient access_key p)) in
    let w0 := snd (__aenter__ w) in
    let req := single_date_request w0 symbols d exchange_filter in
    let first := server 0 req in
    ClientResponse.status first = 401%Z ->
    EodResponse.error (ClientResponse.json first) = Some env ->
    exists c,
      fst (async_with_client (get_eod server symbols d exchange_filter) w)
      = Raised (ResponseException c first)
      /\ issubclass c UnauthorizedError = true
      /\ sent (snd (async_with_client
                      (get_eod server symbols d exchange_filter) w))
         = [req]
      /\ session_closed
           (snd (async_with_client
                   (get_eod server symbols d exchange_filter) w)).
Proof.
  intros server access_key p symbols d exchange_filter env w w0 req first
         Hs He.
  exists (table_kind 401 (ErrorResponse.message env)).
  assert (Hpage : page server req w0 0 = first) by reflexivity.
  assert (E : get_eod server symbols d exchange_filter w0
              = (Raised (ResponseException
                           (table_kind 401 (ErrorResponse.message env))
                           first),
                 closed_world (warned (after_requests req 1 w0)))).
  { rewrite (get_eod_fails server symbols d exchange_filter w0).
    - fold req. rewrite Hpage. unfold failure_of. rewrite Hs, He.
      reflexivity.
    - reflexivity.
    - fold req. rewrite Hpage, Hs. discriminate. }
  rewrite (async_with_client_run _ w _ _ E) by discriminate.
  cbn [fst snd sent closed_world warned after_requests].
  repeat split.
  change UnauthorizedError with (status_family 401).
  apply table_kind_in_family.
Qed.

Lemma X14_bad_key_raises_in_the_unauthorized_family_witness :
  exists c,
    fst (async_with_client
           (get_eod (Sample.always Scenario.bad_key) ["AMZN"]
              Sample.july_17 None)
           (fresh_world (snd (HttpMarketstackClient "key" FREE))))
    = Raised (ResponseException c Scenario.bad_key)
    /\ issubclass c UnauthorizedError = true
    /\ sent (snd (async_with_client
                    (get_eod (Sample.always Scenario.bad_key) ["AMZN"]
                       Sample.july_17 None)
                    (fresh_world (snd (HttpMarketstackClient "key" FREE)))))
       = [single_date_request
            (snd (__aenter__
                    (fresh_world (snd (HttpMarketstackClient "key" FREE)))))
            ["AMZN"] Sample.july_17 None]
    /\ session_closed
         (snd (async_with_client
                 (get_eod (Sample.always Scenario.bad_key) ["AMZN"]
                    Sample.july_17 None)
                 (fresh_world (snd (HttpMarketstackClient "key" FREE))))).
Proof.
  apply (X14_bad_key_raises_in_the_unauthorized_family
           (Sample.always Scenario.bad_key) "key" FREE ["AMZN"]
           Sample.july_17 None
           (ErrorResponse.mk "invalid_access_key"
              "You have not supplied a valid API Access Key." None)).
  - reflexivity.
  - reflexivity.
Defined.

(** ** Dates that come back from the provider *)

Module date_strings.
Import datetime.
Import datetime_facts.
Local Open Scope Z_scope.

Lemma append_assoc (a b c : string) :
  ((a ++ b) ++ c = a ++ (b ++ c))%string.
Proof.
  induction a as [|x a IH]; simpl; [reflexivity|now rewrite IH].
Qed.

Lemma is_tz_char_digit n : is_tz_char (digit n) = false.
Proof.
  unfold is_tz_char.
  now rewrite (digit_differs n "Z" eq_refl), (digit_differs n "+" eq_refl),
    (digit_differs n "-" eq_refl).
Qed.

Lemma separator_spelled y m d rest :
  find_isoformat_datetime_separator (spelled y m d ++ rest) = Some 10%nat.
Proof.
  unfold find_isoformat_datetime_separator, spelled, pad4, pad3, pad2.
  cbn [String.append String.length Nat.eqb byte_at drop tail head].
  cbn [Ascii.eqb Bool.eqb].
  now rewrite (digit_differs (m / 10) "W" eq_refl).
Qed.

Lemma parse_date_spelled y m d rest :
  0 <= y < 10000 -> 0 <= m < 100 -> 0 <= d < 100 ->
  parse_isoformat_date (spelled y m d ++ rest) 10 = Some (y, m, d).
Proof.
  intros Hy Hm Hd. unfold parse_isoformat_date, spelled.
  rewrite !append_assoc.
  rewrite parse_pad4 by exact Hy.
  cbn [String.append head tail]. rewrite Ascii.eqb_refl.
  replace (head (pad2 m ++ String "-" (pad2 d ++ rest)))
    with (digit (m / 10)) by reflexivity.
  rewrite (digit_differs (m / 10) "W" eq_refl).
  rewrite parse_pad2 by exact Hm. cbn [expect]. rewrite Ascii.eqb_refl.
  now rewrite parse_pad2 by exact Hd.
Qed.

Lemma after_component_colon s n :
  1 < n -> after_component true (String ":" s) n = Next s (n - 1).
Proof.
  intros H. unfold after_component. cbn [head tail].
  destruct (Z.leb_spec (n - 1) 0); [lia|reflexivity].
Qed.

Lemma after_component_end b s n :
  n <= 1 -> after_component b s n = Stop (negb (Ascii.eqb (head s) NUL)).
Proof.
  intros H. unfold after_component.
  destruct (Z.leb_spec (n - 1) 0); [reflexivity|lia].
Qed.

Lemma parse_time_utc h m s :
  0 <= h < 100 -> 0 <= m < 100 -> 0 <= s < 100 ->
  parse_isoformat_time
    (pad2 h ++ ":" ++ pad2 m ++ ":" ++ pad2 s ++ "+0000") 13
  = Some (h, m, s, 0, Some (0, 0)).
Proof.
  intros Hh Hm Hs. unfold parse_isoformat_time.
  change (Z.to_nat 13) with 13%nat.
  assert (Htz : find_tz (pad2 h ++ ":" ++ pad2 m ++ ":" ++ pad2 s ++ "+0000")
                  13 = Some 8%nat).
  { unfold pad2. cbn [String.append find_tz head tail].
    rewrite !is_tz_char_digit. reflexivity. }
  rewrite Htz.
  assert (Hhms : parse_hh_mm_ss_ff
                   (pad2 h ++ ":" ++ pad2 m ++ ":" ++ pad2 s ++ "+0000") 8
                 = Some (h, m, s, 0, true)).
  { unfold parse_hh_mm_ss_ff.
    rewrite parse_pad2 by exact Hh.
    cbn [String.append head]. rewrite Ascii.eqb_refl.
    rewrite after_component_colon by lia.
    rewrite parse_pad2 by exact Hm.
    cbn [String.append]. rewrite after_component_colon by lia.
    rewrite parse_pad2 by exact Hs.
    rewrite after_component_end by lia. reflexivity. }
  change (Z.of_nat 8) with 8. rewrite Hhms.
  replace (drop 8 (pad2 h ++ ":" ++ pad2 m ++ ":" ++ pad2 s ++ "+0000"))
    with "+0000"%string by reflexivity.
  reflexivity.
Qed.

(** The provider's timestamp is read back as written, in UTC. *)
Lemma fromisoformat_timestamp d h m s :
  date_ok d = true ->
  0 <= h < 24 -> 0 <= m < 60 -> 0 <= s < 60 ->
  fromisoformat (timestamp d h m s) = Some (mkdatetime d h m s 0 (Some 0)).
Proof.
  intros Hok Hh Hm Hs.
  destruct (date_ok_bounds d Hok) as [By [Bm Bd]].
  unfold fromisoformat, timestamp.
  rewrite separator_spelled, parse_date_spelled by lia.
  replace (String.length
             (spelled (year d) (month d) (day d) ++ "T" ++ pad2 h ++ ":"
              ++ pad2 m ++ ":" ++ pad2 s ++ "+0000"))
    with 24%nat by reflexivity.
  change (24 <? 7)%nat with false. change (10 <? 24)%nat with true.
  cbv iota.
  replace (byte_at
             (spelled (year d) (month d) (day d) ++ "T" ++ pad2 h ++ ":"
              ++ pad2 m ++ ":" ++ pad2 s ++ "+0000") 10)
    with "T"%char by reflexivity.
  change (utf8_width "T") with 1%nat.
  replace (drop (10 + 1)
             (spelled (year d) (month d) (day d) ++ "T" ++ pad2 h ++ ":"
              ++ pad2 m ++ ":" ++ pad2 s ++ "+0000"))
    with (pad2 h ++ ":" ++ pad2 m ++ ":" ++ pad2 s ++ "+0000")%string
    by reflexivity.
  change (Z.of_nat 24 - Z.of_nat (10 + 1)) with 13.
  rewrite parse_time_utc by lia.
  cbn [tzinfo_from_isoformat_results Z.eqb].
  destruct d as [y mo dd]; cbn [year month day] in *.
  rewrite Hok. unfold time_ok.
  destruct (Z.ltb_spec h 24); [|lia].
  destruct (Z.ltb_spec m 60); [|lia].
  destruct (Z.ltb_spec s 60); [|lia].
  reflexivity.
Qed.

Lemma fromisoformat_impossible y m d :
  0 <= y < 10000 -> 0 <= m < 100 -> 0 <= d < 100 ->
  date_ok (mkdate y m d) = false ->
  fromisoformat (spelled y m d) = None.
Proof.
  intros Hy Hm Hd Hbad.
  rewrite fromisoformat_spelled by assumption. now rewrite Hbad.
Qed.

End date_strings.

(** X15.  A row whose date field spells a day that does not exist (a month
    above 12, a 30 February, a day 0, the year 0000) is not deserialized:
    [_deserialize_eod] raises [ValueError] on that string. *)
Theorem X15_impossible_date_raises_ValueError :
  forall (raw : RawEod.t) (y m d : Z) (w : World),
    (0 <= y < 10000)%Z -> (0 <= m < 100)%Z -> (0 <= d < 100)%Z ->
    datetime.date_ok (datetime.mkdate y m d) = false ->
    _deserialize_eod (with_date raw (spelled y m d)) w
    = (Raised (ValueError (spelled y m d)), w).
Proof.
  intros raw y m d w Hy Hm Hd Hbad. unfold _deserialize_eod.
  cbn [RawEod.date with_date].
  now rewrite (date_strings.fromisoformat_impossible y m d Hy Hm Hd Hbad).
Qed.

Lemma X15_impossible_date_raises_ValueError_witness :
  _deserialize_eod Scenario.impossible_day (fresh_world (Sample.client FREE))
  = (Raised (ValueError "2023-02-30"), fresh_world (Sample.client FREE)).
Proof.
  apply (X15_impossible_date_raises_ValueError Sample.amzn 2023 2 30
           (fresh_world (Sample.client FREE))); try lia.
  reflexivity.
Defined.

(** X16.  A row stamped [YYYY-MM-DDThh:mm:ss+0000], as the provider stamps
    its rows, deserializes to the record of that day: the time of day and
    the offset are dropped, the other fields are those of the row. *)
Theorem X16_timestamp_keeps_the_day_only :
  forall (raw : RawEod.t) (d : datetime.date) (h m s : Z) (w : World),
    datetime.date_ok d = true ->
    (0 <= h < 24)%Z -> (0 <= m < 60)%Z -> (0 <= s < 60)%Z ->
    _deserialize_eod (with_date raw (timestamp d h m s)) w
    = (Returned (eod_of raw d), w).
Proof.
  intros raw d h m s w Hok Hh Hm Hs. unfold _deserialize_eod.
  cbn [RawEod.date with_date].
  now rewrite (date_strings.fromisoformat_timestamp d h m s Hok Hh Hm Hs).
Qed.

Lemma X16_timestamp_keeps_the_day_only_witness :
  _deserialize_eod Sample.amzn (fresh_world (Sample.client FREE))
  = (Returned (eod_of Sample.amzn Sample.july_17),
     fresh_world (Sample.client FREE)).
Proof.
  apply (X16_timestamp_keeps_the_day_only Sample.amzn Sample.july_17 0 0 0
           (fresh_world (Sample.client FREE))); try lia.
  reflexivity.
Defined.

(** X17.  [_format_date] tells dates apart: two dates that are printed the
    same are the same date. *)
Theorem X17_format_date_is_injective :
  forall d1 d2 : datetime.date,
    datetime.date_ok d1 = true ->
    datetime.date_ok d2 = true ->
    _format_date d1 = _format_date d2 ->
    d1 = d2.
Proof.
  intros d1 d2 H1 H2 E. unfold _format_date in E.
  pose proof (datetime_facts.read_Ymd_strftime d1 H1) as P1.
  pose proof (datetime_facts.read_Ymd_strftime d2 H2) as P2.
  rewrite E, P2 in P1. now inversion P1.
Qed.

Lemma X17_format_date_is_injective_witness :
  Sample.july_17 = datetime.mkdate 2023 7 17.
Proof.
  apply (X17_format_date_is_injective Sample.july_17
           (datetime.mkdate 2023 7 17)); reflexivity.
Defined.

(** X18.  [__aexit__] reads the session through the guarded property: on a
    client that was never entered it raises the not-initialized
    [RuntimeError] and changes nothing; on a client that holds a session,
    open or closed, it returns with that session closed, so leaving twice
    is harmless. *)
Theorem X18_leaving_the_scope :
  forall w : World,
    __aexit__ w
    = match _client_session (self w) with
      | None => (Raised (RuntimeError Msg_not_initialized), w)
      | Some _ => (Returned tt, closed_world w)
      end
    /\ __aexit__ (closed_world w) = (Returned tt, closed_world w).
Proof.
  intros w. split.
  - unfold __aexit__, _session, session_close, get_self, bind.
    cbv beta iota.
    destruct (_client_session (self w)) as [s|] eqn:E; [|reflexivity].
    unfold ret, get_self. cbv beta iota. rewrite E. reflexivity.
  - reflexivity.
Qed.
